(** * The view controller of frontend/script.js

    A shallow embedding of the browser-side client: the JavaScript values it
    receives from the API, the part of the DOM it writes to, the network it
    talks to, and its four operations ([loadPlayers], the player-form submit
    handler, [loadMatches], [loadMatchStats]) as programs of a state and
    exception monad.  Each operation is run to completion on its own; an
    [await] is a sequence point of the run.  The two DOMContentLoaded
    handlers (the footer line and the two initial loads, which overlap in
    time) are not part of the model. *)

From Stdlib Require Import String Ascii List ZArith Bool Lia DecimalString DecimalPos.
Import ListNotations.
Open Scope string_scope.
Open Scope list_scope.
Set Warnings "-register-all".

Infix "+++" := String.append (at level 60, right associativity).

(** ** Text constants *)

(** The double quote and the line feed, which the templates of the script
    contain. *)
Definition dq : string := String "034"%char EmptyString.
Definition nl : string := String "010"%char EmptyString.

(** ** JavaScript values *)

(** The client never computes with numbers: it converts them to text, tests
    them for truthiness and compares [length] with zero.  An integral number is
    kept as an integer (both zeros are [Int 0]), any other finite number as
    the text Number::toString gives for it. *)
Inductive number :=
| Int (z : Z)
| Dec (text : string)
| NaN
| Infinity (negative : bool).

(** The values JSON.parse produces, and [undefined]. An object is the list of
    its own properties. *)
Inductive value :=
| JUndefined
| JNull
| JBool (b : bool)
| JNum (n : number)
| JStr (s : string)
| JArr (items : list value)
| JObj (props : list (string * value)).

(** Exceptions.  A failed fetch rejects with a TypeError, a body that is not
    JSON with a SyntaxError; [Error] is `new Error(message)`. *)
Inductive error :=
| TypeError (message : string)
| SyntaxError (message : string)
| Error (message : string).

Definition message (e : error) : string :=
  match e with
  | TypeError m | SyntaxError m | Error m => m
  end.

(** The result of an evaluation that may throw. *)
Inductive outcome (A : Type) :=
| Ok (a : A)
| Throw (e : error).
Arguments Ok {A} a.
Arguments Throw {A} e.

Definition obind {A B} (o : outcome A) (f : A -> outcome B) : outcome B :=
  match o with
  | Ok a => f a
  | Throw e => Throw e
  end.

Notation "'let?' x := o 'in' k" := (obind o (fun x => k))
  (at level 10, x name, o at level 100, k at level 200).

(** Number::toString. *)
Definition number_to_string (n : number) : string :=
  match n with
  | Int z => NilZero.string_of_int (Z.to_int z)
  | Dec text => text
  | NaN => "NaN"
  | Infinity false => "Infinity"
  | Infinity true => "-Infinity"
  end.

Fixpoint lookup (key : string) (props : list (string * value)) : option value :=
  match props with
  | [] => None
  | (k, v) :: rest => if String.eqb k key then Some v else lookup key rest
  end.

Definition has_own (key : string) (props : list (string * value)) : bool :=
  match lookup key props with
  | Some _ => true
  | None => false
  end.

(** ToString, as a template literal and string concatenation apply it.
    An array is joined with commas, [undefined] and [null] entries giving the
    empty text.  A parsed object has no callable property of its own, so an
    own [toString] hides Object.prototype.toString and the conversion throws;
    without one the text is [[object Object]]. *)
Fixpoint to_string (v : value) : outcome string :=
  match v with
  | JUndefined => Ok "undefined"
  | JNull => Ok "null"
  | JBool true => Ok "true"
  | JBool false => Ok "false"
  | JNum n => Ok (number_to_string n)
  | JStr s => Ok s
  | JArr items =>
      (fix join (l : list value) : outcome string :=
         match l with
         | [] => Ok EmptyString
         | x :: rest =>
             let? s := match x with
                       | JUndefined | JNull => Ok EmptyString
                       | _ => to_string x
                       end in
             match rest with
             | [] => Ok s
             | _ :: _ => let? r := join rest in Ok (s +++ "," +++ r)
             end
         end) items
  | JObj props =>
      if has_own "toString" props
      then Throw (TypeError "Cannot convert object to primitive value")
      else Ok "[object Object]"
  end.

(** ToBoolean. *)
Definition truthy (v : value) : bool :=
  match v with
  | JUndefined | JNull => false
  | JBool b => b
  | JNum (Int z) => negb (Z.eqb z 0)
  | JNum NaN => false
  | JNum _ => true
  | JStr s => negb (String.eqb s EmptyString)
  | JArr _ | JObj _ => true
  end.

(** Reading a data property [v.key], for the keys the script reads: the field
    names of the API records and [length].  None of them is inherited from a
    prototype except [length] of arrays and strings.  A string is kept as its
    bytes; of its length the script only observes whether it is 0. *)
Definition get (v : value) (key : string) : outcome value :=
  match v with
  | JUndefined => Throw (TypeError ("Cannot read properties of undefined (reading '" +++ key +++ "')"))
  | JNull => Throw (TypeError ("Cannot read properties of null (reading '" +++ key +++ "')"))
  | JBool _ | JNum _ => Ok JUndefined
  | JStr s =>
      if String.eqb key "length" then Ok (JNum (Int (Z.of_nat (String.length s))))
      else Ok JUndefined
  | JArr items =>
      if String.eqb key "length" then Ok (JNum (Int (Z.of_nat (List.length items))))
      else Ok JUndefined
  | JObj props =>
      match lookup key props with
      | Some x => Ok x
      | None => Ok JUndefined
      end
  end.

(** [v === 0]. *)
Definition strict_eq_zero (v : value) : bool :=
  match v with
  | JNum (Int z) => Z.eqb z 0
  | _ => false
  end.

(** ** The document *)

(** What an element made with createElement holds when it is appended: its
    tag, its class list, its [value] when one was assigned, and the markup
    or text assigned to it. *)
Inductive content :=
| InnerHTML (markup : string)
| TextContent (text : string).

Record element := {
  tagName : string;
  classList : list string;
  value_of : option string;
  content_of : content
}.

(** A child of a container: either what the parser made of markup assigned
    to [innerHTML], kept as that markup, or an element appended with
    appendChild.  Every markup the script assigns to a container is a single
    element (a [p] or an [option]) or empty, so a [Parsed] child is one
    child. *)
Inductive node :=
| Parsed (markup : string)
| Appended (e : element).

(** The four containers the script captures at load time. *)
Inductive container :=
| playersTableBody
| matchesContainer
| matchSelect
| statsDisplay.

(** The values of the five controls of the player form. *)
Record form_values := {
  player_name : string;
  player_age : string;
  player_dob : string;
  player_position : string;
  player_number : string
}.

(** ** The network *)

Record request := {
  method : string;
  url : string;
  headers : list (string * string);
  body : option value   (* the value handed to JSON.stringify *)
}.

(** A response body either parses as JSON or makes [res.json()] reject. *)
Inductive response_body :=
| Json (v : value)
| NotJson (why : string).

Record response := {
  status : nat;
  payload : response_body
}.

(** [res.ok]. *)
Definition ok (res : response) : bool :=
  (200 <=? status res)%nat && (status res <=? 299)%nat.

Inductive fetch_outcome :=
| Rejected (why : string)
| Resolved (res : response).

(** What the page does that is visible outside the four containers. *)
Inductive event :=
| Fetch (r : request)
| ConsoleError (e : error)
| Alert (text : string)
| PreventDefault
| FormReset.

(** The network answers a request knowing everything that happened before. *)
Definition network := list event -> request -> fetch_outcome.

(** ** The state of the page *)

Record World := {
  players_table_body : list node;
  matches_container : list node;
  match_select : list node;
  stats_display : list node;
  form : form_values;
  form_defaults : form_values;   (* the values the page's markup gives the controls *)
  trace : list event             (* oldest first *)
}.

Definition children (w : World) (c : container) : list node :=
  match c with
  | playersTableBody => players_table_body w
  | matchesContainer => matches_container w
  | matchSelect => match_select w
  | statsDisplay => stats_display w
  end.

Definition set_children (c : container) (l : list node) (w : World) : World :=
  match c with
  | playersTableBody =>
      {| players_table_body := l; matches_container := matches_container w;
         match_select := match_select w; stats_display := stats_display w;
         form := form w; form_defaults := form_defaults w; trace := trace w |}
  | matchesContainer =>
      {| players_table_body := players_table_body w; matches_container := l;
         match_select := match_select w; stats_display := stats_display w;
         form := form w; form_defaults := form_defaults w; trace := trace w |}
  | matchSelect =>
      {| players_table_body := players_table_body w; matches_container := matches_container w;
         match_select := l; stats_display := stats_display w;
         form := form w; form_defaults := form_defaults w; trace := trace w |}
  | statsDisplay =>
      {| players_table_body := players_table_body w; matches_container := matches_container w;
         match_select := match_select w; stats_display := l;
         form := form w; form_defaults := form_defaults w; trace := trace w |}
  end.

Definition log (e : event) (w : World) : World :=
  {| players_table_body := players_table_body w; matches_container := matches_container w;
     match_select := match_select w; stats_display := stats_display w;
     form := form w; form_defaults := form_defaults w; trace := trace w ++ [e] |}.

Definition set_form (f : form_values) (w : World) : World :=
  {| players_table_body := players_table_body w; matches_container := matches_container w;
     match_select := match_select w; stats_display := stats_display w;
     form := f; form_defaults := form_defaults w; trace := trace w |}.

(** ** The monad of the script: state and exceptions *)

Definition M (A : Type) : Type := World -> outcome A * World.

Definition ret {A} (a : A) : M A := fun w => (Ok a, w).

Definition bind {A B} (m : M A) (k : A -> M B) : M B :=
  fun w =>
    match m w with
    | (Ok a, w') => k a w'
    | (Throw e, w') => (Throw e, w')
    end.

Definition throw {A} (e : error) : M A := fun w => (Throw e, w).

(** [try { body } catch (err) { handler }]: what the body did before it threw
    stays done. *)
Definition try_catch {A} (body : M A) (handler : error -> M A) : M A :=
  fun w =>
    match body w with
    | (Ok a, w') => (Ok a, w')
    | (Throw e, w') => handler e w'
    end.

Definition lift {A} (o : outcome A) : M A := fun w => (o, w).

Notation "x <- m ;; k" := (bind m (fun x => k))
  (at level 61, m at next level, right associativity).
Notation "m ;; k" := (bind m (fun _ => k))
  (at level 61, right associativity).

(** [items.forEach(f)] on an array. *)
Fixpoint for_each {A} (items : list A) (f : A -> M unit) : M unit :=
  match items with
  | [] => ret tt
  | x :: rest => f x ;; for_each rest f
  end.

(** [v.forEach(f)] on a parsed value: only an array has the method. *)
Definition forEach (name : string) (v : value) (f : value -> M unit) : M unit :=
  match v with
  | JArr items => for_each items f
  | JUndefined => throw (TypeError "Cannot read properties of undefined (reading 'forEach')")
  | JNull => throw (TypeError "Cannot read properties of null (reading 'forEach')")
  | _ => throw (TypeError (name +++ ".forEach is not a function"))
  end.

(** ** Primitives of the browser *)

Definition emit (e : event) : M unit := fun w => (Ok tt, log e w).

Definition console_error (e : error) : M unit := emit (ConsoleError e).
Definition alert (text : string) : M unit := emit (Alert text).
Definition preventDefault : M unit := emit PreventDefault.

(** [playerForm.reset()]: every control goes back to its default value. *)
Definition reset : M unit :=
  fun w => (Ok tt, log FormReset (set_form (form_defaults w) w)).

Definition read_form : M form_values := fun w => (Ok (form w), w).

(** [c.innerHTML = markup]. *)
Definition set_innerHTML (c : container) (markup : string) : M unit :=
  fun w =>
    (Ok tt, set_children c (if String.eqb markup EmptyString then [] else [Parsed markup]) w).

(** [c.appendChild(e)]. *)
Definition appendChild (c : container) (e : element) : M unit :=
  fun w => (Ok tt, set_children c (children w c ++ [Appended e]) w).

(** [document.createElement(tag)]. *)
Definition createElement (tag : string) : element :=
  {| tagName := tag; classList := []; value_of := None; content_of := InnerHTML EmptyString |}.

Definition classList_add (classes : list string) (e : element) : element :=
  {| tagName := tagName e; classList := classList e ++ classes;
     value_of := value_of e; content_of := content_of e |}.

Definition set_element_innerHTML (markup : string) (e : element) : element :=
  {| tagName := tagName e; classList := classList e;
     value_of := value_of e; content_of := InnerHTML markup |}.

Definition set_textContent (text : string) (e : element) : element :=
  {| tagName := tagName e; classList := classList e;
     value_of := value_of e; content_of := TextContent text |}.

Definition set_value (v : string) (e : element) : element :=
  {| tagName := tagName e; classList := classList e;
     value_of := Some v; content_of := content_of e |}.

Section Client.

(** The network the page is connected to. *)
Variable net : network.

(** [fetch(url, init)]: the request is issued, then the promise settles. *)
Definition fetch (r : request) : M response :=
  fun w =>
    match net (trace w) r with
    | Rejected why => (Throw (TypeError why), log (Fetch r) w)
    | Resolved res => (Ok res, log (Fetch r) w)
    end.

(** [res.json()]. *)
Definition json (res : response) : M value :=
  match payload res with
  | Json v => ret v
  | NotJson why => throw (SyntaxError why)
  end.

(** ** Configuration and helpers *)

Definition API_BASE_URL : string := "http://127.0.0.1:8000".

Definition GET (u : string) : request :=
  {| method := "GET"; url := u; headers := []; body := None |}.

(** [showMessage(container, message)]. *)
Definition showMessage (c : container) (message : string) : M unit :=
  set_innerHTML c ("<p class=" +++ dq +++ "no-data-msg" +++ dq +++ ">" +++ message +++ "</p>").

(** [${v.key}] in a template: the property is read, then converted to text. *)
Definition field (v : value) (key : string) : outcome string :=
  let? x := get v key in to_string x.

(** [createStatCard(label, value)]. *)
Definition createStatCard (label : string) (val : value) : outcome element :=
  let div := createElement "div" in
  let div := classList_add ["stat-card"] div in
  let? text := to_string val in
  Ok (set_element_innerHTML ("<h4>" +++ label +++ "</h4><p>" +++ text +++ "</p>") div).

(** ** Player management *)

Definition indent8 : string := "        ".
Definition indent6 : string := "      ".

(** The row of one player, lines 52 to 60. *)
Definition player_row (p : value) : outcome element :=
  let row := createElement "tr" in
  let? id := field p "id" in
  let? name := field p "name" in
  let? age := field p "age" in
  let? position := field p "position" in
  let? jersey_number := field p "jersey_number" in
  let? injury_status := field p "injury_status" in
  Ok (set_element_innerHTML
        (nl +++
         indent8 +++ "<td>" +++ id +++ "</td>" +++ nl +++
         indent8 +++ "<td>" +++ name +++ "</td>" +++ nl +++
         indent8 +++ "<td>" +++ age +++ "</td>" +++ nl +++
         indent8 +++ "<td>" +++ position +++ "</td>" +++ nl +++
         indent8 +++ "<td>" +++ jersey_number +++ "</td>" +++ nl +++
         indent8 +++ "<td>" +++ injury_status +++ "</td>" +++ nl +++
         indent6)
        row).

(** The callback of [data.forEach], lines 51 to 62. *)
Definition render_player (p : value) : M unit :=
  row <- lift (player_row p) ;;
  appendChild playersTableBody row.

Definition loadPlayers : M unit :=
  try_catch
    (res <- fetch (GET (API_BASE_URL +++ "/players/")) ;;
     data <- json res ;;
     set_innerHTML playersTableBody EmptyString ;;
     len <- lift (get data "length") ;;
     if strict_eq_zero len then
       showMessage playersTableBody "No players found."
     else
       forEach "data" data render_player)
    (fun err =>
       console_error err ;;
       showMessage playersTableBody "Error loading players.").

(** [parseInt(text)] with no radix: leading white space, a sign, a
    hexadecimal prefix, then the longest run of digits; [NaN] when there is
    none. *)
Definition is_space (c : ascii) : bool :=
  let n := nat_of_ascii c in
  ((9 <=? n)%nat && (n <=? 13)%nat) || (n =? 32)%nat.

Fixpoint skip_spaces (s : string) : string :=
  match s with
  | String c rest => if is_space c then skip_spaces rest else s
  | EmptyString => s
  end.

Definition digit_value (c : ascii) : option Z :=
  let n := Z.of_nat (nat_of_ascii c) in
  if ((48 <=? n) && (n <=? 57))%Z then Some (n - 48)%Z
  else if ((97 <=? n) && (n <=? 122))%Z then Some (n - 87)%Z
  else if ((65 <=? n) && (n <=? 90))%Z then Some (n - 55)%Z
  else None.

Fixpoint digits (radix : Z) (s : string) (acc : option Z) : option Z :=
  match s with
  | String c rest =>
      match digit_value c with
      | Some d =>
          if (d <? radix)%Z
          then digits radix rest
                 (Some (radix * match acc with Some a => a | None => 0 end + d)%Z)
          else acc
      | None => acc
      end
  | EmptyString => acc
  end.

Definition parseInt (text : string) : number :=
  let s := skip_spaces text in
  let '(negative, s) :=
    match s with
    | String "-" rest => (true, rest)
    | String "+" rest => (false, rest)
    | _ => (false, s)
    end in
  let '(radix, s) :=
    match s with
    | String "0" (String "x" rest) => (16%Z, rest)
    | String "0" (String "X" rest) => (16%Z, rest)
    | _ => (10%Z, s)
    end in
  match digits radix s None with
  | Some z => Int (if negative then (- z)%Z else z)
  | None => NaN
  end.

(** The object the submit handler builds from the form, lines 71 to 79. *)
Definition player_of_form (f : form_values) : value :=
  JObj [ ("name", JStr (player_name f));
         ("age", JNum (parseInt (player_age f)));
         ("date_of_birth", JStr (player_dob f));
         ("position", JStr (player_position f));
         ("jersey_number", JNum (parseInt (player_number f)));
         ("transfer_price_vnd", JNum (Int 0));
         ("injury_status", JStr "FIT") ].

Definition create_request (player : value) : request :=
  {| method := "POST";
     url := API_BASE_URL +++ "/players/";
     headers := [("Content-Type", "application/json")];
     body := Some player |}.

(** The submit handler of the player form. *)
Definition playerForm_submit : M unit :=
  preventDefault ;;
  f <- read_form ;;
  let player := player_of_form f in
  try_catch
    (res <- fetch (create_request player) ;;
     (if negb (ok res) then throw (Error "Failed to create player") else ret tt) ;;
     loadPlayers ;;
     reset)
    (fun err => alert ("Error adding player: " +++ message err)).

(** ** Match management *)

(** [statusText], line 113. *)
Definition match_status (m : value) : outcome string :=
  let? c := get m "is_completed" in
  Ok (if truthy c then "Completed" else "Scheduled").

(** [score], line 114. *)
Definition match_score (m : value) : outcome string :=
  let? c := get m "is_completed" in
  if truthy c then
    let? ours := field m "our_score" in
    let? theirs := field m "opponent_score" in
    Ok (ours +++ " - " +++ theirs)
  else Ok "vs".

(** The markup of a match card, lines 115 to 121. *)
Definition match_card_markup (m : value) (statusText score : string) : outcome string :=
  let? opponent_name := field m "opponent_name" in
  let? match_date := field m "match_date" in
  let? venue := field m "venue" in
  Ok (nl +++
      indent8 +++ "<h4>" +++ opponent_name +++ "</h4>" +++ nl +++
      indent8 +++ "<p><strong>Date:</strong> " +++ match_date +++ "</p>" +++ nl +++
      indent8 +++ "<p><strong>Venue:</strong> " +++ venue +++ "</p>" +++ nl +++
      indent8 +++ "<p><strong>Status:</strong> " +++ statusText +++ "</p>" +++ nl +++
      indent8 +++ "<p><strong>Score:</strong> " +++ score +++ "</p>" +++ nl +++
      indent6).

(** The card of one match, lines 111 to 121. *)
Definition match_card (m : value) : outcome element :=
  let matchCard := createElement "div" in
  let? c := get m "is_completed" in
  let matchCard :=
    classList_add ["match-card"; if truthy c then "past" else "upcoming"] matchCard in
  let? statusText := match_status m in
  let? score := match_score m in
  let? markup := match_card_markup m statusText score in
  Ok (set_element_innerHTML markup matchCard).

(** The entry of a completed match in the selection control, lines 125 to 127. *)
Definition match_option (m : value) : outcome element :=
  let opt := createElement "option" in
  let? id := field m "id" in
  let opt := set_value id opt in
  let? match_date := field m "match_date" in
  let? opponent_name := field m "opponent_name" in
  Ok (set_textContent (match_date +++ " vs " +++ opponent_name) opt).

Definition default_option : string :=
  "<option value=" +++ dq +++ dq +++ ">-- Select a Completed Match --</option>".

(** The callback of [matches.forEach], lines 110 to 130. *)
Definition render_match (m : value) : M unit :=
  matchCard <- lift (match_card m) ;;
  appendChild matchesContainer matchCard ;;
  c <- lift (get m "is_completed") ;;
  if truthy c then
    opt <- lift (match_option m) ;;
    appendChild matchSelect opt
  else ret tt.

Definition loadMatches : M unit :=
  try_catch
    (res <- fetch (GET (API_BASE_URL +++ "/matches/upcoming")) ;;
     matches <- json res ;;
     set_innerHTML matchesContainer EmptyString ;;
     set_innerHTML matchSelect default_option ;;
     len <- lift (get matches "length") ;;
     if strict_eq_zero len then
       showMessage matchesContainer "No matches found."
     else
       forEach "matches" matches render_match)
    (fun err =>
       console_error err ;;
       showMessage matchesContainer "Error loading matches.").

(** ** Statistics *)

(** The array [stats], lines 152 to 165. *)
Definition stats_of (s : value) : outcome (list (string * value)) :=
  let? expected_goals := get s "expected_goals" in
  let? shots_on_target := get s "shots_on_target" in
  let? ball_possession_percent := get s "ball_possession_percent" in
  let? total_passes := get s "total_passes" in
  let? successful_passes := get s "successful_passes" in
  let? pass_success_rate := get s "pass_success_rate" in
  let? interceptions := get s "interceptions" in
  let? successful_tackles := get s "successful_tackles" in
  let? aerial_disputes_won := get s "aerial_disputes_won" in
  let? total_fouls := get s "total_fouls" in
  let? yellow_cards := get s "yellow_cards" in
  let? red_cards := get s "red_cards" in
  Ok [ ("Expected Goals (xG)", expected_goals);
       ("Shots on Target", shots_on_target);
       ("Ball Possession (%)", ball_possession_percent);
       ("Total Passes", total_passes);
       ("Successful Passes", successful_passes);
       ("Pass Success Rate (%)", pass_success_rate);
       ("Interceptions", interceptions);
       ("Successful Tackles", successful_tackles);
       ("Aerial Duels Won", aerial_disputes_won);
       ("Total Fouls", total_fouls);
       ("Yellow Cards", yellow_cards);
       ("Red Cards", red_cards) ].

Definition stats_request (id : string) : request :=
  GET (API_BASE_URL +++ "/matches/" +++ id +++ "/stats").

Definition loadMatchStats (matchId : value) : M unit :=
  if negb (truthy matchId) then
    showMessage statsDisplay "Select a match to view statistics."
  else
    try_catch
      (id <- lift (to_string matchId) ;;
       res <- fetch (stats_request id) ;;
       (if negb (ok res) then throw (Error "Stats not found") else ret tt) ;;
       s <- json res ;;
       set_innerHTML statsDisplay EmptyString ;;
       stats <- lift (stats_of s) ;;
       for_each stats (fun '(label, val) =>
         card <- lift (createStatCard label val) ;;
         appendChild statsDisplay card))
      (fun err =>
         showMessage statsDisplay "No statistics available for this match.").

(** The change handler of the selection control: [e.target.value] is a
    string. *)
Definition matchSelect_change (selected : string) : M unit :=
  loadMatchStats (JStr selected).

End Client.

(** ** The records of the API *)

(** A value with no structure of its own. *)
Definition primitive (v : value) : bool :=
  match v with
  | JArr _ | JObj _ => false
  | _ => true
  end.

(** A flat record: an object whose listed fields, where present, are
    primitive. *)
Definition flat_record (keys : list string) (v : value) : bool :=
  match v with
  | JObj props =>
      forallb (fun k => match lookup k props with
                        | Some x => primitive x
                        | None => true
                        end) keys
  | _ => false
  end.

Definition player_fields : list string :=
  ["id"; "name"; "age"; "position"; "jersey_number"; "injury_status"].

Definition player_record : value -> bool := flat_record player_fields.

Definition match_fields : list string :=
  ["id"; "opponent_name"; "match_date"; "venue"; "our_score"; "opponent_score"].

Definition match_record : value -> bool := flat_record match_fields.

Definition stats_fields : list string :=
  ["expected_goals"; "shots_on_target"; "ball_possession_percent"; "total_passes";
   "successful_passes"; "pass_success_rate"; "interceptions"; "successful_tackles";
   "aerial_disputes_won"; "total_fouls"; "yellow_cards"; "red_cards"].

Definition stats_record : value -> bool := flat_record stats_fields.

(** The text a template shows for field [key] of [v]. *)
Definition text_of (v : value) (key : string) : string :=
  match field v key with
  | Ok s => s
  | Throw _ => EmptyString
  end.

(** ** What the containers are expected to hold *)

Definition placeholder (message : string) : node :=
  Parsed ("<p class=" +++ dq +++ "no-data-msg" +++ dq +++ ">" +++ message +++ "</p>").

(** A table row whose cells hold the given texts, in that order. *)
Definition row_of_cells (cells : list string) : element :=
  {| tagName := "tr"; classList := []; value_of := None;
     content_of :=
       InnerHTML (nl +++
                  fold_right
                    (fun c rest => indent8 +++ "<td>" +++ c +++ "</td>" +++ nl +++ rest)
                    indent6 cells) |}.

Definition players_request : request := GET (API_BASE_URL +++ "/players/").
Definition matches_request : request := GET (API_BASE_URL +++ "/matches/upcoming").

Definition is_array (v : value) : bool :=
  match v with
  | JArr _ => true
  | _ => false
  end.

Definition player_row_node (p : value) : node :=
  Appended (row_of_cells (map (text_of p) player_fields)).

(** Whether a match counts as completed: the truthiness of [is_completed]. *)
Definition completed (m : value) : bool :=
  match get m "is_completed" with
  | Ok c => truthy c
  | Throw _ => false
  end.

(** The score text line 114 computes for [m]. *)
Definition score_text (m : value) : string :=
  match match_score m with
  | Ok s => s
  | Throw _ => EmptyString
  end.

(** A match card showing the given status and score. *)
Definition card_of (m : value) (statusText score : string) : element :=
  {| tagName := "div";
     classList := ["match-card"; if completed m then "past" else "upcoming"];
     value_of := None;
     content_of :=
       InnerHTML
         (nl +++
          indent8 +++ "<h4>" +++ text_of m "opponent_name" +++ "</h4>" +++ nl +++
          indent8 +++ "<p><strong>Date:</strong> " +++ text_of m "match_date" +++ "</p>" +++ nl +++
          indent8 +++ "<p><strong>Venue:</strong> " +++ text_of m "venue" +++ "</p>" +++ nl +++
          indent8 +++ "<p><strong>Status:</strong> " +++ statusText +++ "</p>" +++ nl +++
          indent8 +++ "<p><strong>Score:</strong> " +++ score +++ "</p>" +++ nl +++
          indent6) |}.

Definition match_card_node (m : value) : node :=
  Appended (card_of m (if completed m then "Completed" else "Scheduled") (score_text m)).

(** An entry of the selection control with the given value and label. *)
Definition option_with (val label : string) : node :=
  Appended {| tagName := "option"; classList := []; value_of := Some val;
              content_of := TextContent label |}.

Definition match_option_node (m : value) : node :=
  option_with (text_of m "id") (text_of m "match_date" +++ " vs " +++ text_of m "opponent_name").

(** A card of the statistics display. *)
Definition stat_card_node (label text : string) : node :=
  Appended {| tagName := "div"; classList := ["stat-card"]; value_of := None;
              content_of := InnerHTML ("<h4>" +++ label +++ "</h4><p>" +++ text +++ "</p>") |}.

(** ** Sample pages, networks and records *)

Definition blank_form : form_values :=
  {| player_name := EmptyString; player_age := EmptyString; player_dob := EmptyString;
     player_position := EmptyString; player_number := EmptyString |}.

Definition empty_page : World :=
  {| players_table_body := []; matches_container := []; match_select := [];
     stats_display := []; form := blank_form; form_defaults := blank_form; trace := [] |}.

Definition filled_form : form_values :=
  {| player_name := "Alice"; player_age := "24"; player_dob := "2000-01-31";
     player_position := "GK"; player_number := "1" |}.

Definition page_with_form : World :=
  {| players_table_body := []; matches_container := []; match_select := [];
     stats_display := []; form := filled_form; form_defaults := blank_form; trace := [] |}.

Definition offline : network := fun _ _ => Rejected "Failed to fetch".

Definition answering (st : nat) (b : response_body) : network :=
  fun _ _ => Resolved {| status := st; payload := b |}.

Definition alice : value :=
  JObj [ ("id", JNum (Int 7)); ("name", JStr "Alice"); ("age", JNum (Int 24));
         ("position", JStr "GK"); ("jersey_number", JNum (Int 1));
         ("injury_status", JStr "FIT") ].

Definition bob : value :=
  JObj [ ("id", JNum (Int 8)); ("name", JStr "Bob"); ("age", JNum (Int 31));
         ("position", JStr "CB"); ("jersey_number", JNum (Int 4));
         ("injury_status", JStr "INJURED") ].

Definition won_match : value :=
  JObj [ ("id", JNum (Int 5)); ("opponent_name", JStr "Hanoi FC");
         ("match_date", JStr "2024-05-01"); ("venue", JStr "Home");
         ("is_completed", JBool true);
         ("our_score", JNum (Int 3)); ("opponent_score", JNum (Int 1)) ].

Definition next_match : value :=
  JObj [ ("id", JNum (Int 6)); ("opponent_name", JStr "Saigon FC");
         ("match_date", JStr "2024-06-01"); ("venue", JStr "Away");
         ("is_completed", JBool false);
         ("our_score", JNull); ("opponent_score", JNull) ].

Definition error_object : value :=
  JObj [ ("detail", JStr "Internal Server Error") ].

(** A server that creates the player and then lists it. *)
Definition creating : network :=
  fun _ r =>
    if String.eqb (method r) "POST"
    then Resolved {| status := 201; payload := Json alice |}
    else Resolved {| status := 200; payload := Json (JArr [alice]) |}.

(** A fetch that gives no usable answer: the promise rejects, the status is
    not a success, or the body is not JSON. *)
Definition failed (o : fetch_outcome) : bool :=
  match o with
  | Rejected _ => true
  | Resolved res =>
      negb (ok res) ||
      match payload res with
      | NotJson _ => true
      | Json _ => false
      end
  end.

(** The label and the field of each statistics card, in display order. *)
Definition stat_table : list (string * string) :=
  [ ("Expected Goals (xG)", "expected_goals");
    ("Shots on Target", "shots_on_target");
    ("Ball Possession (%)", "ball_possession_percent");
    ("Total Passes", "total_passes");
    ("Successful Passes", "successful_passes");
    ("Pass Success Rate (%)", "pass_success_rate");
    ("Interceptions", "interceptions");
    ("Successful Tackles", "successful_tackles");
    ("Aerial Duels Won", "aerial_disputes_won");
    ("Total Fouls", "total_fouls");
    ("Yellow Cards", "yellow_cards");
    ("Red Cards", "red_cards") ].

Definition stat_cards (s : value) : list node :=
  map (fun '(label, key) => stat_card_node label (text_of s key)) stat_table.

(** The value of [v.key], [undefined] when reading it throws. *)
Definition prop_of (v : value) (key : string) : value :=
  match get v key with
  | Ok x => x
  | Throw _ => JUndefined
  end.

(** Whether [v.length === 0] holds. *)
Definition length_is_zero (v : value) : bool :=
  match get v "length" with
  | Ok len => strict_eq_zero len
  | Throw _ => false
  end.

Definition log_all (es : list event) (w : World) : World :=
  fold_left (fun w e => log e w) es w.

Definition sample_stats : value :=
  JObj [ ("match_id", JNum (Int 5));
         ("expected_goals", JNum (Dec "1.8")); ("shots_on_target", JNum (Int 6));
         ("ball_possession_percent", JNum (Dec "54.5")); ("total_passes", JNum (Int 480));
         ("successful_passes", JNum (Int 410)); ("pass_success_rate", JNum (Dec "85.4"));
         ("interceptions", JNum (Int 12)); ("successful_tackles", JNum (Int 15));
         ("aerial_disputes_won", JNum (Int 9)); ("total_fouls", JNum (Int 11));
         ("yellow_cards", JNum (Int 2)); ("red_cards", JNum (Int 0)) ].

(** ** Requests in flight *)

(** A [fetch] in two steps: the request goes out, and later the promise
    settles with the answer the network had for it. *)
Definition send (net : network) (r : request) : M fetch_outcome :=
  fun w => (Ok (net (trace w) r), log (Fetch r) w).

Definition settle (o : fetch_outcome) : M response :=
  match o with
  | Rejected why => throw (TypeError why)
  | Resolved res => ret res
  end.

(** [loadPlayers] from the moment its fetch settles, lines 42 to 66.  What
    it does to the page happens in one synchronous run: the catch block when
    the fetch or [res.json()] rejects, lines 44 to 62 otherwise. *)
Definition loadPlayers_resume (o : fetch_outcome) : M unit :=
  try_catch
    (res <- settle o ;;
     data <- json res ;;
     set_innerHTML playersTableBody EmptyString ;;
     len <- lift (get data "length") ;;
     if strict_eq_zero len then
       showMessage playersTableBody "No players found."
     else
       forEach "data" data render_player)
    (fun err =>
       console_error err ;;
       showMessage playersTableBody "Error loading players.").

(** [loadMatches] from the moment its fetch settles, lines 100 to 134. *)
Definition loadMatches_resume (o : fetch_outcome) : M unit :=
  try_catch
    (res <- settle o ;;
     matches <- json res ;;
     set_innerHTML matchesContainer EmptyString ;;
     set_innerHTML matchSelect default_option ;;
     len <- lift (get matches "length") ;;
     if strict_eq_zero len then
       showMessage matchesContainer "No matches found."
     else
       forEach "matches" matches render_match)
    (fun err =>
       console_error err ;;
       showMessage matchesContainer "Error loading matches.").

(** [loadMatchStats] up to its first [await], lines 141 to 147: the prompt
    for a falsy identifier, otherwise the request, or the catch block when
    building the URL throws.  The result is the answer still to come. *)
Definition loadMatchStats_start (net : network) (matchId : value) : M (option fetch_outcome) :=
  if negb (truthy matchId) then
    showMessage statsDisplay "Select a match to view statistics." ;;
    ret None
  else
    try_catch
      (id <- lift (to_string matchId) ;;
       o <- send net (stats_request id) ;;
       ret (Some o))
      (fun err =>
         showMessage statsDisplay "No statistics available for this match." ;;
         ret None).

(** [loadMatchStats] from the moment its fetch settles, lines 147 to 170. *)
Definition loadMatchStats_resume (o : fetch_outcome) : M unit :=
  try_catch
    (res <- settle o ;;
     (if negb (ok res) then throw (Error "Stats not found") else ret tt) ;;
     s <- json res ;;
     set_innerHTML statsDisplay EmptyString ;;
     stats <- lift (stats_of s) ;;
     for_each stats (fun '(label, val) =>
       card <- lift (createStatCard label val) ;;
       appendChild statsDisplay card))
    (fun err =>
       showMessage statsDisplay "No statistics available for this match.").

Definition resume_pending (p : option fetch_outcome) : M unit :=
  match p with
  | Some o => loadMatchStats_resume o
  | None => ret tt
  end.

(** The load handler of lines 181 to 184: both requests go out, players
    first; the two answers are then handled in the order they arrive. *)
Definition initial_load (net : network) (players_first : bool) : M unit :=
  o1 <- send net players_request ;;
  o2 <- send net matches_request ;;
  if players_first
  then loadPlayers_resume o1 ;; loadMatches_resume o2
  else loadMatches_resume o2 ;; loadPlayers_resume o1.


(** The rows of the entries of a list, as far as they can be made. *)
Fixpoint player_rows (ps : list value) : outcome (list element) :=
  match ps with
  | [] => Ok []
  | p :: rest =>
      let? row := player_row p in
      let? rows := player_rows rest in
      Ok (row :: rows)
  end.

(** The texts of the values of the statistics cards. *)
Fixpoint stat_texts (stats : list (string * value)) : outcome (list (string * string)) :=
  match stats with
  | [] => Ok []
  | (label, val) :: rest =>
      let? t := to_string val in
      let? ts := stat_texts rest in
      Ok ((label, t) :: ts)
  end.

(** What the player table shows for an answer. *)
Definition players_shown (o : fetch_outcome) : list node :=
  match o with
  | Rejected _ => [placeholder "Error loading players."]
  | Resolved res =>
      match payload res with
      | NotJson _ => [placeholder "Error loading players."]
      | Json (JArr (p :: ps)) =>
          match player_rows (p :: ps) with
          | Ok rows => map Appended rows
          | Throw _ => [placeholder "Error loading players."]
          end
      | Json v =>
          [placeholder (if length_is_zero v then "No players found."
                        else "Error loading players.")]
      end
  end.

(** What the statistics display shows for an answer. *)
Definition stats_shown (o : fetch_outcome) : list node :=
  match o with
  | Rejected _ => [placeholder "No statistics available for this match."]
  | Resolved res =>
      if ok res then
        match payload res with
        | NotJson _ => [placeholder "No statistics available for this match."]
        | Json s =>
            match (let? stats := stats_of s in stat_texts stats) with
            | Ok cards => map (fun '(label, t) => stat_card_node label t) cards
            | Throw _ => [placeholder "No statistics available for this match."]
            end
        end
      else [placeholder "No statistics available for this match."]
  end.

(** Two answers with the same body: both rejected, or both resolved with
    the same payload, whatever their statuses. *)
Definition same_body (o1 o2 : fetch_outcome) : Prop :=
  match o1, o2 with
  | Rejected _, Rejected _ => True
  | Resolved r1, Resolved r2 => payload r1 = payload r2
  | _, _ => False
  end.

(** A page showing leftovers of earlier renders. *)
Definition used_page : World :=
  {| players_table_body := [placeholder "Error loading players."];
     matches_container := [placeholder "No matches found."];
     match_select := [Parsed default_option; option_with "9" "2023-01-01 vs Old FC"];
     stats_display := [placeholder "Select a match to view statistics."];
     form := filled_form; form_defaults := blank_form;
     trace := [Fetch players_request] |}.

(** The cards and the options made for the entries of a list, as far as
    the rendering gets, and the exception that stopped it, if any. *)
Fixpoint matches_made (ms : list value) : option error * list element * list element :=
  match ms with
  | [] => (None, [], [])
  | m :: rest =>
      match match_card m with
      | Throw e => (Some e, [], [])
      | Ok card =>
          match get m "is_completed" with
          | Throw e => (Some e, [card], [])
          | Ok c =>
              if truthy c then
                match match_option m with
                | Throw e => (Some e, [card], [])
                | Ok opt =>
                    let '(r, cards, opts) := matches_made rest in
                    (r, card :: cards, opt :: opts)
                end
              else
                let '(r, cards, opts) := matches_made rest in
                (r, card :: cards, opts)
          end
      end
  end.

(** What the match list shows for an answer. *)
Definition matches_shown (o : fetch_outcome) : list node :=
  match o with
  | Rejected _ => [placeholder "Error loading matches."]
  | Resolved res =>
      match payload res with
      | NotJson _ => [placeholder "Error loading matches."]
      | Json (JArr (m :: ms)) =>
          match matches_made (m :: ms) with
          | (None, cards, _) => map Appended cards
          | (Some _, _, _) => [placeholder "Error loading matches."]
          end
      | Json v =>
          [placeholder (if length_is_zero v then "No matches found."
                        else "Error loading matches.")]
      end
  end.

(** What the selection control holds for an answer; [None] when it is not
    written. *)
Definition select_shown (o : fetch_outcome) : option (list node) :=
  match o with
  | Rejected _ => None
  | Resolved res =>
      match payload res with
      | NotJson _ => None
      | Json (JArr ms) =>
          let '(_, _, opts) := matches_made ms in
          Some (Parsed default_option :: map Appended opts)
      | Json _ => Some [Parsed default_option]
      end
  end.




(** ** Basic facts *)

Example to_string_number : to_string (JNum (Int (-12))) = Ok "-12".
Proof. reflexivity. Qed.

Example to_string_array :
  to_string (JArr [JNum (Int 1); JNull; JStr "a"; JArr [JBool true; JUndefined]])
  = Ok "1,,a,true,".
Proof. reflexivity. Qed.

Example to_string_shadowed :
  to_string (JObj [("toString", JNum (Int 1))])
  = Throw (TypeError "Cannot convert object to primitive value").
Proof. reflexivity. Qed.

Example parseInt_samples :
  parseInt "24" = Int 24 /\ parseInt "  -7px" = Int (-7) /\ parseInt "0x1f" = Int 31
  /\ parseInt "1e3" = Int 1 /\ parseInt EmptyString = NaN /\ parseInt "abc" = NaN.
Proof. repeat split. Qed.

Example get_length_samples :
  get (JArr [JNull; JNull]) "length" = Ok (JNum (Int 2))
  /\ get (JStr "ab") "length" = Ok (JNum (Int 2))
  /\ get error_object "length" = Ok JUndefined
  /\ get JNull "length" = Throw (TypeError "Cannot read properties of null (reading 'length')").
Proof. repeat split. Qed.

Lemma set_children_same c w : set_children c (children w c) w = w.
Proof. destruct w, c; reflexivity. Qed.

Lemma children_set c l w : children (set_children c l w) c = l.
Proof. destruct c; reflexivity. Qed.

Lemma set_children_twice c l l' w :
  set_children c l' (set_children c l w) = set_children c l' w.
Proof. destruct c; reflexivity. Qed.

Lemma trace_set_children c l w : trace (set_children c l w) = trace w.
Proof. destruct c; reflexivity. Qed.

Lemma primitive_to_string v :
  primitive v = true -> exists s, to_string v = Ok s.
Proof.
  destruct v as [| |[]| | | |]; simpl; try discriminate; eauto.
Qed.

Lemma flat_record_field keys v k :
  flat_record keys v = true -> In k keys -> field v k = Ok (text_of v k).
Proof.
  destruct v; simpl; try discriminate.
  intros H Hin. rewrite forallb_forall in H. specialize (H k Hin).
  unfold text_of, field; simpl.
  destruct (lookup k props) as [x|]; simpl; [|reflexivity].
  destruct (primitive_to_string x H) as [s ->]. reflexivity.
Qed.

Lemma flat_record_get keys v k :
  flat_record keys v = true -> exists x, get v k = Ok x.
Proof.
  destruct v; simpl; try discriminate. intros _.
  destruct (lookup k props); eauto.
Qed.

Lemma player_row_record p :
  player_record p = true ->
  player_row p = Ok (row_of_cells (map (text_of p) player_fields)).
Proof.
  intros H. unfold player_row.
  rewrite !(flat_record_field player_fields p) by (auto; simpl; tauto).
  reflexivity.
Qed.

(** Running the monad one step at a time. *)
Lemma bind_ok {A B} (m : M A) (k : A -> M B) w a w' :
  m w = (Ok a, w') -> bind m k w = k a w'.
Proof. unfold bind; intros ->; reflexivity. Qed.

Lemma bind_throw {A B} (m : M A) (k : A -> M B) w e w' :
  m w = (Throw e, w') -> bind m k w = (Throw e, w').
Proof. unfold bind; intros ->; reflexivity. Qed.

Lemma try_ok {A} (m : M A) h w a w' :
  m w = (Ok a, w') -> try_catch m h w = (Ok a, w').
Proof. unfold try_catch; intros ->; reflexivity. Qed.

Lemma try_throw {A} (m : M A) h w e w' :
  m w = (Throw e, w') -> try_catch m h w = h e w'.
Proof. unfold try_catch; intros ->; reflexivity. Qed.

Lemma fetch_resolved net r w res :
  net (trace w) r = Resolved res -> fetch net r w = (Ok res, log (Fetch r) w).
Proof. unfold fetch; intros ->; reflexivity. Qed.

Lemma fetch_rejected net r w why :
  net (trace w) r = Rejected why ->
  fetch net r w = (Throw (TypeError why), log (Fetch r) w).
Proof. unfold fetch; intros ->; reflexivity. Qed.

Lemma lift_ok {A} (o : outcome A) a w : o = Ok a -> lift o w = (Ok a, w).
Proof. intros ->; reflexivity. Qed.

Lemma lift_throw {A} (o : outcome A) e w : o = Throw e -> lift o w = (Throw (A:=A) e, w).
Proof. intros ->; reflexivity. Qed.

Lemma for_each_player_rows ps w :
  forallb player_record ps = true ->
  for_each ps render_player w
  = (Ok tt,
     set_children playersTableBody (players_table_body w ++ map player_row_node ps) w).
Proof.
  revert w. induction ps as [|p ps IH]; intros w H; simpl.
  - rewrite app_nil_r. destruct w; reflexivity.
  - simpl in H. apply andb_prop in H as [Hp Hps].
    erewrite bind_ok.
    2:{ unfold render_player.
        erewrite bind_ok by (apply lift_ok, player_row_record, Hp). reflexivity. }
    rewrite IH by assumption.
    simpl. rewrite <- app_assoc. reflexivity.
Qed.

Lemma loadPlayers_records net w st ps :
  net (trace w) players_request = Resolved {| status := st; payload := Json (JArr ps) |} ->
  forallb player_record ps = true ->
  loadPlayers net w =
    (Ok tt,
     set_children playersTableBody
       (match ps with
        | [] => [placeholder "No players found."]
        | _ :: _ => map player_row_node ps
        end)
       (log (Fetch players_request) w)).
Proof.
  intros Hnet Hrec. unfold loadPlayers. apply try_ok.
  erewrite bind_ok by (apply fetch_resolved, Hnet).
  erewrite bind_ok by reflexivity.
  erewrite bind_ok by reflexivity.
  erewrite bind_ok by reflexivity.
  destruct ps as [|p ps].
  - reflexivity.
  - change (strict_eq_zero (JNum (Int (Z.of_nat (List.length (p :: ps)))))) with false.
    cbv iota. unfold forEach. rewrite for_each_player_rows by assumption.
    rewrite set_children_twice. reflexivity.
Qed.

(** C5: a player list of N player records gives exactly N rows, each with
    the six fields id, name, age, position, jersey_number, injury_status in
    that order; an empty list gives the placeholder and no row. Nothing else
    changes but the logged request. *)
Theorem loadPlayers_renders_rows net w st ps :
  net (trace w) players_request = Resolved {| status := st; payload := Json (JArr ps) |} ->
  forallb player_record ps = true ->
  loadPlayers net w =
    (Ok tt,
     set_children playersTableBody
       (match ps with
        | [] => [placeholder "No players found."]
        | _ :: _ =>
            map (fun p => Appended (row_of_cells (map (text_of p) player_fields))) ps
        end)
       (log (Fetch players_request) w))
  /\ (ps <> [] ->
      List.length (children (snd (loadPlayers net w)) playersTableBody) = List.length ps).
Proof.
  intros Hnet Hrec.
  pose proof (loadPlayers_records net w st ps Hnet Hrec) as E.
  split; [exact E|].
  intros Hne. rewrite E. cbn [snd]. rewrite children_set.
  destruct ps; [congruence|]. apply length_map.
Qed.

(** An entry that is not a record: reading [p.id] of [null] throws, and the
    rows appended before it are replaced by the error placeholder. *)
Example loadPlayers_null_entry :
  loadPlayers (answering 200 (Json (JArr [alice; JNull]))) empty_page =
    (Ok tt,
     set_children playersTableBody [placeholder "Error loading players."]
       (log_all [Fetch players_request;
                 ConsoleError
                   (TypeError "Cannot read properties of null (reading 'id')")]
          empty_page)).
Proof. reflexivity. Qed.

(** At two sample players the table holds two rows. *)
Lemma loadPlayers_renders_rows_witness :
  loadPlayers (answering 200 (Json (JArr [alice; bob]))) empty_page =
    (Ok tt,
     set_children playersTableBody [player_row_node alice; player_row_node bob]
       (log (Fetch players_request) empty_page))
  /\ ([alice; bob] <> [] ->
      List.length
        (children (snd (loadPlayers (answering 200 (Json (JArr [alice; bob]))) empty_page))
           playersTableBody) = 2%nat).
Proof.
  apply (loadPlayers_renders_rows (answering 200 (Json (JArr [alice; bob]))) empty_page
           200 [alice; bob]); reflexivity.
Defined.

(** ** Matches *)

Lemma record_completed keys m :
  flat_record keys m = true ->
  exists c, get m "is_completed" = Ok c /\ truthy c = completed m.
Proof.
  intros H. destruct (flat_record_get keys m "is_completed" H) as [c Hc].
  exists c. split; [exact Hc|]. unfold completed. rewrite Hc. reflexivity.
Qed.

Lemma match_score_record m :
  match_record m = true ->
  match_score m =
    Ok (if completed m
        then text_of m "our_score" +++ " - " +++ text_of m "opponent_score"
        else "vs").
Proof.
  intros H. destruct (record_completed _ m H) as (c & Hc & Ht).
  unfold match_score. rewrite Hc. cbn [obind]. rewrite Ht.
  destruct (completed m); [|reflexivity].
  rewrite !(flat_record_field match_fields m) by (auto; simpl; tauto).
  reflexivity.
Qed.

Lemma match_card_record m :
  match_record m = true ->
  match_card m =
    Ok (card_of m (if completed m then "Completed" else "Scheduled") (score_text m)).
Proof.
  intros H. destruct (record_completed _ m H) as (c & Hc & Ht).
  unfold match_card, match_status, score_text, match_card_markup.
  rewrite (match_score_record m H), Hc. cbn [obind]. rewrite Ht.
  rewrite !(flat_record_field match_fields m) by (auto; simpl; tauto).
  reflexivity.
Qed.

Lemma match_option_record m :
  match_record m = true ->
  match_option m =
    Ok {| tagName := "option"; classList := []; value_of := Some (text_of m "id");
          content_of :=
            TextContent (text_of m "match_date" +++ " vs " +++ text_of m "opponent_name") |}.
Proof.
  intros H. unfold match_option.
  rewrite !(flat_record_field match_fields m) by (auto; simpl; tauto).
  reflexivity.
Qed.

Lemma render_match_record m w :
  match_record m = true ->
  render_match m w =
    (Ok tt,
     set_children matchSelect
       (match_select w ++ (if completed m then [match_option_node m] else []))
       (set_children matchesContainer (matches_container w ++ [match_card_node m]) w)).
Proof.
  intros H. destruct (record_completed _ m H) as (c & Hc & Ht).
  unfold render_match.
  erewrite bind_ok by (apply lift_ok, match_card_record, H).
  erewrite bind_ok by reflexivity.
  erewrite bind_ok by (apply lift_ok, Hc).
  rewrite Ht. unfold match_option_node, option_with, match_card_node.
  destruct (completed m).
  - erewrite bind_ok by (apply lift_ok, match_option_record, H). reflexivity.
  - cbn. rewrite app_nil_r. destruct w; reflexivity.
Qed.

Lemma for_each_matches ms w :
  forallb match_record ms = true ->
  for_each ms render_match w =
    (Ok tt,
     set_children matchSelect
       (match_select w ++ map match_option_node (filter completed ms))
       (set_children matchesContainer (matches_container w ++ map match_card_node ms) w)).
Proof.
  revert w. induction ms as [|m ms IH]; intros w H.
  - simpl. rewrite !app_nil_r. destruct w; reflexivity.
  - simpl in H. apply andb_prop in H as [Hm Hms].
    cbn [for_each]. erewrite bind_ok by (apply render_match_record, Hm).
    rewrite IH by assumption. cbn [filter map].
    destruct w; destruct (completed m); cbn; rewrite <- ?app_assoc; reflexivity.
Qed.

Lemma default_option_not_empty : String.eqb default_option EmptyString = false.
Proof. reflexivity. Qed.

Lemma loadMatches_records net w st ms :
  net (trace w) matches_request = Resolved {| status := st; payload := Json (JArr ms) |} ->
  forallb match_record ms = true ->
  loadMatches net w =
    (Ok tt,
     set_children matchSelect
       (Parsed default_option :: map match_option_node (filter completed ms))
       (set_children matchesContainer
          (match ms with
           | [] => [placeholder "No matches found."]
           | _ :: _ => map match_card_node ms
           end)
          (log (Fetch matches_request) w))).
Proof.
  intros Hnet Hrec. unfold loadMatches. apply try_ok.
  erewrite bind_ok by (apply fetch_resolved, Hnet).
  erewrite bind_ok by reflexivity.
  erewrite bind_ok by reflexivity.
  erewrite bind_ok by reflexivity.
  erewrite bind_ok by reflexivity.
  rewrite default_option_not_empty.
  destruct ms as [|m ms].
  - destruct w; reflexivity.
  - change (strict_eq_zero (JNum (Int (Z.of_nat (List.length (m :: ms)))))) with false.
    cbv iota. unfold forEach. rewrite for_each_matches by assumption.
    destruct w; reflexivity.
Qed.

(** C3: every match record the match list renders gets a card whose score
    text is "vs" when the match is not completed and
    "<our_score> - <opponent_score>" when it is, so "3 - 1" for the scores 3
    and 1. *)
Theorem rendered_score_text net w st ms :
  net (trace w) matches_request = Resolved {| status := st; payload := Json (JArr ms) |} ->
  forallb match_record ms = true ->
  ms <> [] ->
  children (snd (loadMatches net w)) matchesContainer =
    map (fun m => Appended (card_of m (if completed m then "Completed" else "Scheduled")
                              (score_text m))) ms
  /\ forall m, In m ms ->
       match_score m = Ok (score_text m) /\
       (completed m = false -> score_text m = "vs") /\
       (completed m = true ->
        score_text m = text_of m "our_score" +++ " - " +++ text_of m "opponent_score") /\
       (completed m = true ->
        get m "our_score" = Ok (JNum (Int 3)) ->
        get m "opponent_score" = Ok (JNum (Int 1)) ->
        score_text m = "3 - 1").
Proof.
  intros Hnet Hrec Hne. split.
  - rewrite (loadMatches_records net w st ms Hnet Hrec). cbn [snd].
    destruct ms; [congruence|]. destruct w; reflexivity.
  - intros m Hin. rewrite forallb_forall in Hrec. specialize (Hrec m Hin).
    pose proof (match_score_record m Hrec) as Hs.
    assert (Ht : score_text m =
                 if completed m
                 then text_of m "our_score" +++ " - " +++ text_of m "opponent_score"
                 else "vs") by (unfold score_text; rewrite Hs; reflexivity).
    repeat split.
    + rewrite Hs, Ht. reflexivity.
    + intros E. rewrite Ht, E. reflexivity.
    + intros E. rewrite Ht, E. reflexivity.
    + intros E Ho Hp. rewrite Ht, E. unfold text_of, field. rewrite Ho, Hp. reflexivity.
Qed.

(** C4: after the match list is rendered from match records, the selection
    control holds, after its default entry, one option per completed match
    and none for the others; each option's value is the match id and its
    label is "<match_date> vs <opponent_name>". *)
Theorem matchSelect_options net w st ms :
  net (trace w) matches_request = Resolved {| status := st; payload := Json (JArr ms) |} ->
  forallb match_record ms = true ->
  children (snd (loadMatches net w)) matchSelect =
    Parsed default_option ::
    map (fun m => option_with (text_of m "id")
                    (text_of m "match_date" +++ " vs " +++ text_of m "opponent_name"))
        (filter completed ms).
Proof.
  intros Hnet Hrec.
  rewrite (loadMatches_records net w st ms Hnet Hrec). cbn [snd].
  rewrite children_set. reflexivity.
Qed.

(** At a won match (3 to 1) and a scheduled one. *)
Lemma rendered_score_text_witness :
  children (snd (loadMatches (answering 200 (Json (JArr [won_match; next_match]))) empty_page))
    matchesContainer =
    [Appended (card_of won_match "Completed" "3 - 1");
     Appended (card_of next_match "Scheduled" "vs")]
  /\ score_text won_match = "3 - 1"
  /\ score_text next_match = "vs".
Proof.
  destruct (rendered_score_text (answering 200 (Json (JArr [won_match; next_match])))
              empty_page 200 [won_match; next_match] eq_refl eq_refl)
    as [Hcards Hscore].
  - discriminate.
  - split; [exact Hcards|]. split.
    + destruct (Hscore won_match (or_introl eq_refl)) as (_ & _ & _ & H).
      apply H; reflexivity.
    + destruct (Hscore next_match (or_intror (or_introl eq_refl))) as (_ & H & _).
      apply H; reflexivity.
Defined.

(** At a won match and a scheduled one the control gets one option. *)
Lemma matchSelect_options_witness :
  children (snd (loadMatches (answering 200 (Json (JArr [won_match; next_match]))) empty_page))
    matchSelect =
    [Parsed default_option; option_with "5" "2024-05-01 vs Hanoi FC"].
Proof.
  apply (matchSelect_options (answering 200 (Json (JArr [won_match; next_match])))
           empty_page 200 [won_match; next_match]); reflexivity.
Defined.

(** The selection control only grows while the matches are rendered. *)
Lemma render_match_select m w :
  exists extra, match_select (snd (render_match m w)) = match_select w ++ extra.
Proof.
  unfold render_match, bind, lift, appendChild, ret.
  destruct (match_card m) as [card|e]; cbn.
  2:{ exists []. now rewrite app_nil_r. }
  destruct (get m "is_completed") as [c|e]; cbn.
  2:{ exists []. now rewrite app_nil_r. }
  destruct (truthy c).
  - destruct (match_option m) as [opt|e]; cbn.
    + eexists. reflexivity.
    + exists []. now rewrite app_nil_r.
  - exists []. now rewrite app_nil_r.
Qed.

Lemma for_each_select items w :
  exists extra,
    match_select (snd (for_each items render_match w)) = match_select w ++ extra.
Proof.
  revert w. induction items as [|m items IH]; intros w.
  - exists []. cbn. now rewrite app_nil_r.
  - cbn [for_each]. unfold bind.
    destruct (render_match_select m w) as [x Hx].
    destruct (render_match m w) as [[[]|e] w1]; cbn [snd] in *.
    + destruct (IH w1) as [y Hy]. exists (x ++ y).
      rewrite Hy, Hx, app_assoc. reflexivity.
    + exists x. exact Hx.
Qed.

Lemma handler_keeps_select (m : M unit) w msg :
  match_select
    (snd (try_catch m (fun err => console_error err ;; showMessage matchesContainer msg) w))
  = match_select (snd (m w)).
Proof.
  unfold try_catch. destruct (m w) as [[a|err] w1]; reflexivity.
Qed.

Lemma loadMatches_parsed_select net w res v :
  net (trace w) matches_request = Resolved res ->
  payload res = Json v ->
  exists extra,
    children (snd (loadMatches net w)) matchSelect = Parsed default_option :: extra.
Proof.
  intros Hnet Hv. unfold loadMatches. cbn [children].
  rewrite handler_keeps_select.
  erewrite bind_ok by (apply fetch_resolved, Hnet).
  erewrite bind_ok by (unfold json; rewrite Hv; reflexivity).
  erewrite bind_ok by reflexivity.
  erewrite bind_ok by reflexivity.
  rewrite default_option_not_empty.
  destruct (get v "length") as [len|e] eqn:Hlen.
  2:{ erewrite bind_throw by reflexivity. exists []. reflexivity. }
  erewrite bind_ok by reflexivity.
  destruct (strict_eq_zero len).
  { exists []. reflexivity. }
  destruct v; try (exists []; reflexivity).
  unfold forEach.
  match goal with |- context [for_each items render_match ?w0] =>
    destruct (for_each_select items w0) as [extra Hx]; rewrite Hx end.
  exists extra. reflexivity.
Qed.

(** C9, as the script has it: once the response has been received and
    parsed, the selection control starts with the default option, whatever
    the rest of the run does; when the fetch or the parsing fails the control
    is left as it was; and a rendered list of match records with C completed
    matches gives C + 1 entries. *)
Theorem matchSelect_default_option net w :
  (forall res v,
      net (trace w) matches_request = Resolved res ->
      payload res = Json v ->
      hd_error (children (snd (loadMatches net w)) matchSelect)
      = Some (Parsed default_option))
  /\ (forall why,
      net (trace w) matches_request = Rejected why ->
      children (snd (loadMatches net w)) matchSelect = children w matchSelect)
  /\ (forall res why,
      net (trace w) matches_request = Resolved res ->
      payload res = NotJson why ->
      children (snd (loadMatches net w)) matchSelect = children w matchSelect)
  /\ (forall st ms,
      net (trace w) matches_request
      = Resolved {| status := st; payload := Json (JArr ms) |} ->
      forallb match_record ms = true ->
      List.length (children (snd (loadMatches net w)) matchSelect)
      = (List.length (filter completed ms) + 1)%nat).
Proof.
  repeat split.
  - intros res v Hnet Hv.
    destruct (loadMatches_parsed_select net w res v Hnet Hv) as [extra ->].
    reflexivity.
  - intros why Hnet. unfold loadMatches.
    erewrite try_throw.
    2:{ erewrite bind_throw by (apply fetch_rejected, Hnet). reflexivity. }
    reflexivity.
  - intros res why Hnet Hp. unfold loadMatches.
    erewrite try_throw.
    2:{ erewrite bind_ok by (apply fetch_resolved, Hnet).
        erewrite bind_throw by (unfold json; rewrite Hp; reflexivity). reflexivity. }
    reflexivity.
  - intros st ms Hnet Hrec.
    rewrite (loadMatches_records net w st ms Hnet Hrec). cbn [snd].
    rewrite children_set. cbn [List.length]. rewrite length_map. lia.
Qed.

(** On a page whose selection control starts empty: a parsed answer puts
    the default option first, a failed fetch leaves the control empty. *)
Lemma matchSelect_default_option_witness :
  hd_error
    (children (snd (loadMatches (answering 200 (Json (JArr [won_match; next_match])))
                      empty_page)) matchSelect)
  = Some (Parsed default_option)
  /\ List.length
       (children (snd (loadMatches (answering 200 (Json (JArr [won_match; next_match])))
                         empty_page)) matchSelect) = 2%nat
  /\ children (snd (loadMatches offline empty_page)) matchSelect = []
  /\ children (snd (loadMatches (answering 502 (NotJson "Unexpected token <")) empty_page))
       matchSelect = [].
Proof.
  destruct (matchSelect_default_option
              (answering 200 (Json (JArr [won_match; next_match]))) empty_page)
    as (Hhead & _ & _ & Hcount).
  destruct (matchSelect_default_option offline empty_page) as (_ & Hdown & _).
  destruct (matchSelect_default_option
              (answering 502 (NotJson "Unexpected token <")) empty_page)
    as (_ & _ & Hbad & _).
  split; [|split; [|split]].
  - apply (Hhead _ _ eq_refl eq_refl).
  - apply (Hcount 200%nat [won_match; next_match] eq_refl eq_refl).
  - apply (Hdown _ eq_refl).
  - apply (Hbad _ _ eq_refl eq_refl).
Defined.

(** C9 as stated fails: when the fetch fails on a page whose selection
    control is empty, the control stays empty, with no default option. *)
Lemma matchSelect_no_default_after_failure :
  children (snd (loadMatches offline empty_page)) matchSelect = []
  /\ hd_error (children (snd (loadMatches offline empty_page)) matchSelect)
     <> Some (Parsed default_option).
Proof. split; [reflexivity | discriminate]. Qed.

(** ** Statistics *)

Lemma flat_record_prop keys s k :
  flat_record keys s = true -> get s k = Ok (prop_of s k).
Proof.
  intros H. destruct (flat_record_get keys s k H) as [x Hx].
  unfold prop_of. rewrite Hx. reflexivity.
Qed.

Lemma flat_record_text keys s k :
  flat_record keys s = true -> In k keys ->
  to_string (prop_of s k) = Ok (text_of s k).
Proof.
  intros H Hin. pose proof (flat_record_field keys s k H Hin) as Hf.
  unfold field in Hf. rewrite (flat_record_prop keys s k H) in Hf. exact Hf.
Qed.

(** The callback of [stats.forEach], line 167. *)
Lemma for_each_cards (table : list (string * string)) s w :
  stats_record s = true ->
  (forall label key, In (label, key) table -> In key stats_fields) ->
  for_each (map (fun '(label, key) => (label, prop_of s key)) table)
    (fun '(label, val) =>
       card <- lift (createStatCard label val) ;; appendChild statsDisplay card) w
  = (Ok tt,
     set_children statsDisplay
       (stats_display w ++
        map (fun '(label, key) => stat_card_node label (text_of s key)) table) w).
Proof.
  intros Hs. revert w. induction table as [|[label key] table IH]; intros w Hin.
  - cbn. rewrite app_nil_r. destruct w; reflexivity.
  - cbn [map for_each].
    erewrite bind_ok.
    2:{ erewrite bind_ok.
        2:{ apply lift_ok. unfold createStatCard.
            rewrite (flat_record_text stats_fields s key Hs)
              by (apply (Hin label); left; reflexivity).
            reflexivity. }
        reflexivity. }
    rewrite IH by (intros l k H; apply (Hin l); right; exact H).
    destruct w; cbn. rewrite <- app_assoc. reflexivity.
Qed.

Lemma stats_of_record s :
  stats_record s = true ->
  stats_of s = Ok (map (fun '(label, key) => (label, prop_of s key)) stat_table).
Proof.
  intros H. unfold stats_of.
  rewrite !(flat_record_prop stats_fields s) by exact H.
  reflexivity.
Qed.

Lemma stat_table_fields label key :
  In (label, key) stat_table -> In key stats_fields.
Proof.
  intros H. apply (in_map snd) in H. exact H.
Qed.

(** C8: a successful statistics fetch of a statistics record replaces the
    content of the statistics display by exactly twelve labelled cards, one
    per field, in the order of the record's fields. *)
Theorem loadMatchStats_twelve_cards net w matchId id res s :
  truthy matchId = true ->
  to_string matchId = Ok id ->
  net (trace w) (stats_request id) = Resolved res ->
  ok res = true ->
  payload res = Json s ->
  stats_record s = true ->
  loadMatchStats net matchId w =
    (Ok tt, set_children statsDisplay (stat_cards s) (log (Fetch (stats_request id)) w))
  /\ List.length (stat_cards s) = 12%nat
  /\ map snd stat_table = stats_fields.
Proof.
  intros Ht Hid Hnet Hok Hp Hs. repeat split.
  unfold loadMatchStats. rewrite Ht. cbn [negb]. apply try_ok.
  erewrite bind_ok by (apply lift_ok, Hid).
  erewrite bind_ok by (apply fetch_resolved, Hnet).
  rewrite Hok. cbn [negb].
  erewrite bind_ok by reflexivity.
  erewrite bind_ok by (unfold json; rewrite Hp; reflexivity).
  erewrite bind_ok by reflexivity.
  erewrite bind_ok by (apply lift_ok, stats_of_record, Hs).
  rewrite (for_each_cards stat_table s) by (exact Hs || exact stat_table_fields).
  unfold stat_cards. destruct w; reflexivity.
Qed.

(** At a sample record for match 5. *)
Lemma loadMatchStats_twelve_cards_witness :
  loadMatchStats (answering 200 (Json sample_stats)) (JStr "5") empty_page =
    (Ok tt,
     set_children statsDisplay (stat_cards sample_stats)
       (log (Fetch (stats_request "5")) empty_page))
  /\ List.length (stat_cards sample_stats) = 12%nat
  /\ map snd stat_table = stats_fields.
Proof.
  apply (loadMatchStats_twelve_cards (answering 200 (Json sample_stats)) empty_page
           (JStr "5") "5" {| status := 200; payload := Json sample_stats |} sample_stats);
    reflexivity.
Defined.

(** C6: for an empty (falsy) match identifier the statistics display shows
    the prompt and nothing else happens: no request is issued. *)
Theorem loadMatchStats_no_selection net w matchId :
  truthy matchId = false ->
  loadMatchStats net matchId w =
    (Ok tt,
     set_children statsDisplay [placeholder "Select a match to view statistics."] w)
  /\ trace (snd (loadMatchStats net matchId w)) = trace w.
Proof.
  intros H. unfold loadMatchStats. rewrite H. cbn [negb].
  split; [reflexivity|]. destruct w; reflexivity.
Qed.

(** Selecting the empty entry of the control. *)
Lemma loadMatchStats_no_selection_witness :
  matchSelect_change offline EmptyString empty_page =
    (Ok tt,
     set_children statsDisplay [placeholder "Select a match to view statistics."] empty_page)
  /\ trace (snd (matchSelect_change offline EmptyString empty_page)) = trace empty_page.
Proof.
  apply (loadMatchStats_no_selection offline empty_page (JStr EmptyString)); reflexivity.
Defined.

Lemma loadMatchStats_failed net w matchId id :
  truthy matchId = true ->
  to_string matchId = Ok id ->
  failed (net (trace w) (stats_request id)) = true ->
  loadMatchStats net matchId w =
    (Ok tt,
     set_children statsDisplay [placeholder "No statistics available for this match."]
       (log (Fetch (stats_request id)) w)).
Proof.
  intros Ht Hid Hf. unfold loadMatchStats. rewrite Ht. cbn [negb].
  destruct (net (trace w) (stats_request id)) as [why|res] eqn:Hnet.
  - erewrite try_throw.
    2:{ erewrite bind_ok by (apply lift_ok, Hid).
        erewrite bind_throw by (apply fetch_rejected, Hnet). reflexivity. }
    reflexivity.
  - cbn [failed] in Hf. destruct (ok res) eqn:Hok.
    + destruct (payload res) as [v|why] eqn:Hp; [discriminate|].
      erewrite try_throw.
      2:{ erewrite bind_ok by (apply lift_ok, Hid).
          erewrite bind_ok by (apply fetch_resolved, Hnet).
          rewrite Hok. cbn [negb].
          erewrite bind_ok by reflexivity.
          erewrite bind_throw by (unfold json; rewrite Hp; reflexivity).
          reflexivity. }
      reflexivity.
    + erewrite try_throw.
      2:{ erewrite bind_ok by (apply lift_ok, Hid).
          erewrite bind_ok by (apply fetch_resolved, Hnet).
          rewrite Hok. cbn [negb].
          erewrite bind_throw by reflexivity.
          reflexivity. }
      reflexivity.
Qed.

Lemma try_catch_unit (m : M unit) (h : error -> M unit) w :
  (forall e w', fst (h e w') = Ok tt) ->
  fst (try_catch m h w) = Ok tt.
Proof.
  intros H. unfold try_catch. destruct (m w) as [[[]|e] w']; [reflexivity|apply H].
Qed.

Lemma loadMatchStats_never_throws net w matchId :
  fst (loadMatchStats net matchId w) = Ok tt.
Proof.
  unfold loadMatchStats. destruct (truthy matchId); cbn [negb]; [|reflexivity].
  apply try_catch_unit. reflexivity.
Qed.

Lemma loadPlayers_never_throws net w : fst (loadPlayers net w) = Ok tt.
Proof. apply try_catch_unit. reflexivity. Qed.

Lemma loadMatches_never_throws net w : fst (loadMatches net w) = Ok tt.
Proof. apply try_catch_unit. reflexivity. Qed.

(** C7: when the statistics fetch fails, by a rejected promise, a
    non-success status or an unreadable body, the statistics display shows
    the "no statistics available" placeholder, and the operation returns
    normally; it never throws, whatever it is given. *)
Theorem loadMatchStats_failure net w matchId id :
  truthy matchId = true ->
  to_string matchId = Ok id ->
  failed (net (trace w) (stats_request id)) = true ->
  loadMatchStats net matchId w =
    (Ok tt,
     set_children statsDisplay [placeholder "No statistics available for this match."]
       (log (Fetch (stats_request id)) w))
  /\ forall net' w' matchId', fst (loadMatchStats net' matchId' w') = Ok tt.
Proof.
  intros Ht Hid Hf. split.
  - apply loadMatchStats_failed; assumption.
  - intros. apply loadMatchStats_never_throws.
Qed.

(** A 404 answer for match 5. *)
Lemma loadMatchStats_failure_witness :
  loadMatchStats (answering 404 (Json error_object)) (JStr "5") empty_page =
    (Ok tt,
     set_children statsDisplay [placeholder "No statistics available for this match."]
       (log (Fetch (stats_request "5")) empty_page))
  /\ forall net' w' matchId', fst (loadMatchStats net' matchId' w') = Ok tt.
Proof.
  apply (loadMatchStats_failure (answering 404 (Json error_object)) empty_page
           (JStr "5") "5"); reflexivity.
Defined.

(** ** Failures of the read operations *)

Lemma loadPlayers_rejected net w why :
  net (trace w) players_request = Rejected why ->
  loadPlayers net w =
    (Ok tt,
     set_children playersTableBody [placeholder "Error loading players."]
       (log (ConsoleError (TypeError why)) (log (Fetch players_request) w))).
Proof.
  intros Hnet. unfold loadPlayers. erewrite try_throw.
  2:{ erewrite bind_throw by (apply fetch_rejected, Hnet). reflexivity. }
  reflexivity.
Qed.

Lemma loadMatches_rejected net w why :
  net (trace w) matches_request = Rejected why ->
  loadMatches net w =
    (Ok tt,
     set_children matchesContainer [placeholder "Error loading matches."]
       (log (ConsoleError (TypeError why)) (log (Fetch matches_request) w))).
Proof.
  intros Hnet. unfold loadMatches. erewrite try_throw.
  2:{ erewrite bind_throw by (apply fetch_rejected, Hnet). reflexivity. }
  reflexivity.
Qed.

(** C1, as the script has it: for the player list and the match list a
    network failure shows the section's error placeholder and an empty list
    shows a different one; for the statistics a network failure and a
    non-success status both show the "no statistics available" placeholder
    and no card. *)
Theorem read_failure_placeholders net w :
  (forall why,
      net (trace w) players_request = Rejected why ->
      children (snd (loadPlayers net w)) playersTableBody
      = [placeholder "Error loading players."])
  /\ (forall st,
      net (trace w) players_request = Resolved {| status := st; payload := Json (JArr []) |} ->
      children (snd (loadPlayers net w)) playersTableBody
      = [placeholder "No players found."])
  /\ (forall why,
      net (trace w) matches_request = Rejected why ->
      children (snd (loadMatches net w)) matchesContainer
      = [placeholder "Error loading matches."])
  /\ (forall st,
      net (trace w) matches_request = Resolved {| status := st; payload := Json (JArr []) |} ->
      children (snd (loadMatches net w)) matchesContainer
      = [placeholder "No matches found."])
  /\ (forall matchId id,
      truthy matchId = true ->
      to_string matchId = Ok id ->
      (exists why, net (trace w) (stats_request id) = Rejected why) \/
      (exists res, net (trace w) (stats_request id) = Resolved res /\ ok res = false) ->
      children (snd (loadMatchStats net matchId w)) statsDisplay
      = [placeholder "No statistics available for this match."])
  /\ placeholder "Error loading players." <> placeholder "No players found."
  /\ placeholder "Error loading matches." <> placeholder "No matches found.".
Proof.
  split; [|split; [|split; [|split; [|split; [|split]]]]].
  - intros why H. rewrite (loadPlayers_rejected net w why H).
    cbn [snd]. apply children_set.
  - intros st H. rewrite (loadPlayers_records net w st [] H eq_refl).
    cbn [snd]. apply children_set.
  - intros why H. rewrite (loadMatches_rejected net w why H).
    cbn [snd]. apply children_set.
  - intros st H. rewrite (loadMatches_records net w st [] H eq_refl).
    cbn [snd]. destruct w; reflexivity.
  - intros matchId id Ht Hid Hf.
    rewrite (loadMatchStats_failed net w matchId id Ht Hid).
    + cbn [snd]. apply children_set.
    + destruct Hf as [[why ->]|(res & -> & Hok)]; [reflexivity|].
      cbn [failed]. rewrite Hok. reflexivity.
  - discriminate.
  - discriminate.
Qed.

(** On an empty page: offline, and with empty lists. *)
Lemma read_failure_placeholders_witness :
  children (snd (loadPlayers offline empty_page)) playersTableBody
  = [placeholder "Error loading players."]
  /\ children (snd (loadPlayers (answering 200 (Json (JArr []))) empty_page)) playersTableBody
     = [placeholder "No players found."]
  /\ children (snd (loadMatches offline empty_page)) matchesContainer
     = [placeholder "Error loading matches."]
  /\ children (snd (loadMatches (answering 200 (Json (JArr []))) empty_page)) matchesContainer
     = [placeholder "No matches found."]
  /\ children (snd (loadMatchStats offline (JStr "5") empty_page)) statsDisplay
     = [placeholder "No statistics available for this match."]
  /\ children (snd (loadMatchStats (answering 404 (Json error_object)) (JStr "5") empty_page))
       statsDisplay
     = [placeholder "No statistics available for this match."].
Proof.
  destruct (read_failure_placeholders offline empty_page)
    as (Hp & _ & Hm & _ & Hs & _).
  destruct (read_failure_placeholders (answering 200 (Json (JArr []))) empty_page)
    as (_ & Hp0 & _ & Hm0 & _).
  destruct (read_failure_placeholders (answering 404 (Json error_object)) empty_page)
    as (_ & _ & _ & _ & Hs404 & _).
  split; [|split; [|split; [|split; [|split]]]].
  - apply (Hp _ eq_refl).
  - apply (Hp0 200%nat eq_refl).
  - apply (Hm _ eq_refl).
  - apply (Hm0 200%nat eq_refl).
  - apply (Hs (JStr "5") "5" eq_refl eq_refl). left. eexists. reflexivity.
  - apply (Hs404 (JStr "5") "5" eq_refl eq_refl). right. eexists. split; reflexivity.
Defined.

(** C1 as stated fails on the player list: a network failure and an empty
    list show different texts, and a response with status 500 whose body is a
    list of players is rendered as rows. *)
Lemma read_errors_not_collapsed :
  children (snd (loadPlayers offline empty_page)) playersTableBody
  = [placeholder "Error loading players."]
  /\ children (snd (loadPlayers (answering 200 (Json (JArr []))) empty_page)) playersTableBody
     = [placeholder "No players found."]
  /\ children (snd (loadPlayers offline empty_page)) playersTableBody
     <> children (snd (loadPlayers (answering 200 (Json (JArr []))) empty_page))
          playersTableBody
  /\ children (snd (loadPlayers (answering 500 (Json (JArr [alice]))) empty_page))
       playersTableBody
     = [Appended (row_of_cells ["7"; "Alice"; "24"; "GK"; "1"; "FIT"])].
Proof. repeat split. discriminate. Qed.

(** ** What the player list leaves untouched *)

Lemma render_player_frame p w :
  exists l, snd (render_player p w) = set_children playersTableBody l w.
Proof.
  unfold render_player, bind, lift, appendChild.
  destruct (player_row p) as [row|e]; cbn [snd].
  - eexists. reflexivity.
  - exists (players_table_body w). symmetry. apply (set_children_same playersTableBody).
Qed.

Lemma for_each_player_frame items w :
  exists l, snd (for_each items render_player w) = set_children playersTableBody l w.
Proof.
  revert w. induction items as [|p items IH]; intros w.
  - exists (players_table_body w). symmetry. apply (set_children_same playersTableBody).
  - cbn [for_each]. unfold bind.
    destruct (render_player_frame p w) as [l Hl].
    destruct (render_player p w) as [[[]|e] w1]; cbn [snd] in *; subst w1.
    + destruct (IH (set_children playersTableBody l w)) as [l' Hl'].
      exists l'. rewrite Hl'. apply set_children_twice.
    + exists l. reflexivity.
Qed.

(** The player list issues its one request, may log one error to the
    console, and changes the player table only. *)
Lemma loadPlayers_frame net w :
  exists l es,
    loadPlayers net w =
      (Ok tt, set_children playersTableBody l (log_all (Fetch players_request :: es) w))
    /\ (es = [] \/ exists e, es = [ConsoleError e]).
Proof.
  assert (Hcatch : forall e l0,
    (console_error e ;; showMessage playersTableBody "Error loading players.")
      (set_children playersTableBody l0 (log (Fetch players_request) w))
    = (Ok tt,
       set_children playersTableBody [placeholder "Error loading players."]
         (log_all [Fetch players_request; ConsoleError e] w))).
  { intros e l0. destruct w; reflexivity. }
  unfold loadPlayers.
  destruct (net (trace w) players_request) as [why|res] eqn:Hnet.
  { erewrite try_throw by (erewrite bind_throw by (apply fetch_rejected, Hnet); reflexivity).
    rewrite <- (set_children_same playersTableBody (log _ w)), Hcatch.
    eexists _, [_]. split; [reflexivity|]. right. eexists. reflexivity. }
  destruct (payload res) as [v|why] eqn:Hp.
  2:{ erewrite try_throw.
      2:{ erewrite bind_ok by (apply fetch_resolved, Hnet).
          erewrite bind_throw by (unfold json; rewrite Hp; reflexivity). reflexivity. }
      rewrite <- (set_children_same playersTableBody (log _ w)), Hcatch.
      eexists _, [_]. split; [reflexivity|]. right. eexists. reflexivity. }
  destruct (get v "length") as [len|e] eqn:Hlen.
  2:{ erewrite try_throw.
      2:{ erewrite bind_ok by (apply fetch_resolved, Hnet).
          erewrite bind_ok by (unfold json; rewrite Hp; reflexivity).
          erewrite bind_ok by reflexivity.
          erewrite bind_throw by (apply lift_throw, Hlen). reflexivity. }
      rewrite Hcatch.
      eexists _, [_]. split; [reflexivity|]. right. eexists. reflexivity. }
  destruct (strict_eq_zero len) eqn:Hz.
  { erewrite try_ok.
    2:{ erewrite bind_ok by (apply fetch_resolved, Hnet).
        erewrite bind_ok by (unfold json; rewrite Hp; reflexivity).
        erewrite bind_ok by reflexivity.
        erewrite bind_ok by (apply lift_ok, Hlen).
        rewrite Hz. reflexivity. }
    rewrite set_children_twice.
    eexists _, []. split; [reflexivity|]. left. reflexivity. }
  destruct (forEach "data" v render_player
              (set_children playersTableBody [] (log (Fetch players_request) w)))
    as [[[]|e] w1] eqn:Hloop.
  - assert (Hw1 : exists l, w1 = set_children playersTableBody l (log (Fetch players_request) w)).
    { destruct v; try discriminate. unfold forEach in Hloop.
      destruct (for_each_player_frame items
                  (set_children playersTableBody [] (log (Fetch players_request) w)))
        as [l Hl].
      rewrite Hloop in Hl. cbn [snd] in Hl. exists l. rewrite Hl.
      apply set_children_twice. }
    destruct Hw1 as [l ->].
    erewrite try_ok.
    2:{ erewrite bind_ok by (apply fetch_resolved, Hnet).
        erewrite bind_ok by (unfold json; rewrite Hp; reflexivity).
        erewrite bind_ok by reflexivity.
        erewrite bind_ok by (apply lift_ok, Hlen).
        rewrite Hz. exact Hloop. }
    eexists _, []. split; [reflexivity|]. left. reflexivity.
  - assert (Hw1 : exists l, w1 = set_children playersTableBody l (log (Fetch players_request) w)).
    { destruct v; unfold forEach, throw in Hloop;
        try (injection Hloop as _ <-; eexists; reflexivity).
      destruct (for_each_player_frame items
                  (set_children playersTableBody [] (log (Fetch players_request) w)))
        as [l Hl].
      rewrite Hloop in Hl. cbn [snd] in Hl. exists l. rewrite Hl.
      apply set_children_twice. }
    destruct Hw1 as [l ->].
    erewrite try_throw.
    2:{ erewrite bind_ok by (apply fetch_resolved, Hnet).
        erewrite bind_ok by (unfold json; rewrite Hp; reflexivity).
        erewrite bind_ok by reflexivity.
        erewrite bind_ok by (apply lift_ok, Hlen).
        rewrite Hz. exact Hloop. }
    rewrite Hcatch.
    eexists _, [_]. split; [reflexivity|]. right. eexists. reflexivity.
Qed.

Lemma form_defaults_set_children c l w :
  form_defaults (set_children c l w) = form_defaults w.
Proof. destruct c; reflexivity. Qed.

Lemma trace_log_all es w : trace (log_all es w) = trace w ++ es.
Proof.
  revert w. induction es as [|e es IH]; intros w; cbn.
  - now rewrite app_nil_r.
  - unfold log_all in IH. rewrite IH. cbn. now rewrite <- app_assoc.
Qed.

Lemma form_defaults_log_all es w : form_defaults (log_all es w) = form_defaults w.
Proof.
  revert w. induction es as [|e es IH]; intros w; cbn; [reflexivity|].
  unfold log_all in IH. now rewrite IH.
Qed.

(** ** The player form *)

(** C2: a submission issues exactly one creation request. When it succeeds,
    exactly one request for the player list follows and then the form is
    reset; nothing is alerted. When it fails, by a non-success status or a
    network error, nothing is requested after it, the form keeps its values,
    and one alert carries the error message. *)
Theorem playerForm_submit_requests net w :
  let post := create_request (player_of_form (form w)) in
  let w' := snd (playerForm_submit net w) in
  fst (playerForm_submit net w) = Ok tt /\
  match net (trace w ++ [PreventDefault]) post with
  | Resolved res =>
      if ok res then
        (exists es,
            (es = [] \/ exists e, es = [ConsoleError e]) /\
            trace w' =
              trace w ++ [PreventDefault; Fetch post; Fetch players_request] ++ es ++ [FormReset])
        /\ form w' = form_defaults w
      else
        trace w' =
          trace w ++ [PreventDefault; Fetch post;
                      Alert ("Error adding player: " +++ "Failed to create player")]
        /\ form w' = form w
        /\ forall c, children w' c = children w c
  | Rejected why =>
      trace w' =
        trace w ++ [PreventDefault; Fetch post; Alert ("Error adding player: " +++ why)]
      /\ form w' = form w
      /\ forall c, children w' c = children w c
  end.
Proof.
  intros post w'. subst w'.
  unfold playerForm_submit.
  erewrite bind_ok by reflexivity.
  erewrite bind_ok by reflexivity.
  change (form (log PreventDefault w)) with (form w). fold post.
  destruct (net (trace w ++ [PreventDefault]) post) as [why|res] eqn:Hnet.
  - erewrite try_throw.
    2:{ erewrite bind_throw by (apply fetch_rejected; exact Hnet). reflexivity. }
    cbn. rewrite <- !app_assoc. repeat split.
  - destruct (ok res) eqn:Hok.
    + destruct (loadPlayers_frame net (log (Fetch post) (log PreventDefault w)))
        as (l & es & Hload & Hes).
      erewrite try_ok.
      2:{ erewrite bind_ok by (apply fetch_resolved; exact Hnet).
          rewrite Hok. cbn [negb].
          erewrite bind_ok by reflexivity.
          erewrite bind_ok by exact Hload.
          reflexivity. }
      cbn [fst snd]. split; [reflexivity|]. split.
      * exists es. split; [exact Hes|].
        cbn [trace log set_form].
        rewrite trace_set_children, trace_log_all. cbn [trace log].
        rewrite <- !app_assoc. reflexivity.
      * cbn [form log set_form].
        rewrite form_defaults_set_children, form_defaults_log_all. reflexivity.
    + erewrite try_throw.
      2:{ erewrite bind_ok by (apply fetch_resolved; exact Hnet).
          rewrite Hok. cbn [negb].
          erewrite bind_throw by reflexivity. reflexivity. }
      cbn. rewrite <- !app_assoc. repeat split.
Qed.

(** A successful creation on the sample server: one POST, one GET, the
    reset, and the form back at its defaults. *)
Example playerForm_submit_created :
  trace (snd (playerForm_submit creating page_with_form)) =
    [PreventDefault;
     Fetch (create_request (player_of_form filled_form));
     Fetch players_request;
     FormReset]
  /\ form (snd (playerForm_submit creating page_with_form)) = blank_form
  /\ player_of_form filled_form =
     JObj [ ("name", JStr "Alice"); ("age", JNum (Int 24));
            ("date_of_birth", JStr "2000-01-31"); ("position", JStr "GK");
            ("jersey_number", JNum (Int 1)); ("transfer_price_vnd", JNum (Int 0));
            ("injury_status", JStr "FIT") ].
Proof. repeat split. Qed.

(** The same submission with no network. *)
Example playerForm_submit_offline :
  playerForm_submit offline page_with_form =
    (Ok tt,
     log_all [PreventDefault;
              Fetch (create_request (player_of_form filled_form));
              Alert "Error adding player: Failed to fetch"] page_with_form).
Proof. reflexivity. Qed.

(** ** A body that is not an array *)

Lemma length_is_zero_spec v :
  is_array v = false ->
  length_is_zero v = true <->
  v = JStr EmptyString \/
  exists props, v = JObj props /\ lookup "length" props = Some (JNum (Int 0)).
Proof.
  intros Harr. unfold length_is_zero. destruct v; cbn; try discriminate.
  - split; [discriminate|]. intros [H|(p & H & _)]; discriminate.
  - split; [discriminate|]. intros [H|(p & H & _)]; discriminate.
  - split; [discriminate|]. intros [H|(p & H & _)]; discriminate.
  - split; [discriminate|]. intros [H|(p & H & _)]; discriminate.
  - destruct s; cbn.
    + split; [intros _; left; reflexivity | reflexivity].
    + split; [discriminate|]. intros [H|(p & H & _)]; discriminate.
  - destruct (lookup "length" props) as [x|] eqn:Hl; cbn.
    + split.
      * intros H. right. exists props. split; [reflexivity|].
        destruct x as [| | |[z| | |]| | |]; cbn in H; try discriminate.
        apply Z.eqb_eq in H. subst z. exact Hl.
      * intros [H|(p & H & Hp)]; [discriminate|].
        injection H as <-. rewrite Hl in Hp. injection Hp as ->. reflexivity.
    + split; [discriminate|]. intros [H|(p & H & Hp)]; [discriminate|].
      injection H as <-. rewrite Hl in Hp. discriminate.
Qed.

Lemma loadPlayers_not_array net w res v :
  net (trace w) players_request = Resolved res ->
  payload res = Json v ->
  is_array v = false ->
  children (snd (loadPlayers net w)) playersTableBody =
    [placeholder (if length_is_zero v then "No players found."
                  else "Error loading players.")].
Proof.
  intros Hnet Hp Harr. unfold loadPlayers, length_is_zero.
  destruct (get v "length") as [len|e] eqn:Hlen.
  2:{ erewrite try_throw.
      2:{ erewrite bind_ok by (apply fetch_resolved, Hnet).
          erewrite bind_ok by (unfold json; rewrite Hp; reflexivity).
          erewrite bind_ok by reflexivity.
          erewrite bind_throw by (apply lift_throw, Hlen). reflexivity. }
      reflexivity. }
  destruct (strict_eq_zero len) eqn:Hz.
  - erewrite try_ok.
    2:{ erewrite bind_ok by (apply fetch_resolved, Hnet).
        erewrite bind_ok by (unfold json; rewrite Hp; reflexivity).
        erewrite bind_ok by reflexivity.
        erewrite bind_ok by (apply lift_ok, Hlen).
        rewrite Hz. reflexivity. }
    reflexivity.
  - assert (Hloop : exists e w1,
              forEach "data" v render_player
                (set_children playersTableBody [] (log (Fetch players_request) w))
              = (Throw e, w1)).
    { destruct v; try discriminate; eexists _, _; reflexivity. }
    destruct Hloop as (e & w1 & Hloop).
    erewrite try_throw.
    2:{ erewrite bind_ok by (apply fetch_resolved, Hnet).
        erewrite bind_ok by (unfold json; rewrite Hp; reflexivity).
        erewrite bind_ok by reflexivity.
        erewrite bind_ok by (apply lift_ok, Hlen).
        rewrite Hz. exact Hloop. }
    reflexivity.
Qed.

(** C10, as the script has it: for a body that parses as JSON and is not an
    array, the player list returns normally, the exception being caught, and
    the player table shows the error placeholder, unless the value's [length]
    is exactly 0 (the empty string, or an object with a [length] of 0), in
    which case it shows the "no players" placeholder. *)
Theorem loadPlayers_not_an_array net w res v :
  net (trace w) players_request = Resolved res ->
  payload res = Json v ->
  is_array v = false ->
  fst (loadPlayers net w) = Ok tt
  /\ children (snd (loadPlayers net w)) playersTableBody =
     [placeholder (if length_is_zero v then "No players found."
                   else "Error loading players.")]
  /\ (length_is_zero v = true <->
      v = JStr EmptyString \/
      exists props, v = JObj props /\ lookup "length" props = Some (JNum (Int 0))).
Proof.
  intros Hnet Hp Harr. split; [|split].
  - apply loadPlayers_never_throws.
  - apply (loadPlayers_not_array net w res v); assumption.
  - apply length_is_zero_spec, Harr.
Qed.

(** At an error object sent with status 500. *)
Lemma loadPlayers_not_an_array_witness :
  fst (loadPlayers (answering 500 (Json error_object)) empty_page) = Ok tt
  /\ children (snd (loadPlayers (answering 500 (Json error_object)) empty_page))
       playersTableBody = [placeholder "Error loading players."].
Proof.
  destruct (loadPlayers_not_an_array (answering 500 (Json error_object)) empty_page
              {| status := 500; payload := Json error_object |} error_object
              eq_refl eq_refl eq_refl) as (Hok & Hshown & _).
  split; [exact Hok | exact Hshown].
Defined.

(** C10 as stated fails: the empty string and an object whose [length] is 0
    are not arrays, and for them the player table shows "No players found.",
    not the error placeholder. *)
Lemma loadPlayers_empty_string_body :
  children (snd (loadPlayers (answering 200 (Json (JStr EmptyString))) empty_page))
    playersTableBody
  = [placeholder "No players found."]
  /\ children (snd (loadPlayers (answering 200 (Json (JObj [("length", JNum (Int 0))])))
                      empty_page))
       playersTableBody
     = [placeholder "No players found."]
  /\ [placeholder "No players found."] <> [placeholder "Error loading players."].
Proof. repeat split. discriminate. Qed.

(** ** The operations from the moment the answer arrives *)

Lemma loadPlayers_send net w :
  loadPlayers net w = (o <- send net players_request ;; loadPlayers_resume o) w.
Proof.
  unfold loadPlayers, loadPlayers_resume, try_catch, bind, fetch, send, settle.
  fold players_request.
  destruct (net (trace w) players_request); reflexivity.
Qed.

Lemma loadMatches_send net w :
  loadMatches net w = (o <- send net matches_request ;; loadMatches_resume o) w.
Proof.
  unfold loadMatches, loadMatches_resume, try_catch, bind, fetch, send, settle.
  fold matches_request.
  destruct (net (trace w) matches_request); reflexivity.
Qed.

Lemma loadMatchStats_send net matchId w :
  loadMatchStats net matchId w =
    (p <- loadMatchStats_start net matchId ;; resume_pending p) w.
Proof.
  unfold loadMatchStats, loadMatchStats_start.
  destruct (truthy matchId); cbn [negb]; [|reflexivity].
  unfold resume_pending, loadMatchStats_resume, try_catch, bind, fetch, send, settle, lift.
  destruct (to_string matchId) as [id|e]; [|reflexivity].
  destruct (net (trace w) (stats_request id)); reflexivity.
Qed.

Lemma for_each_player_rows_made ps w :
  (forall rows, player_rows ps = Ok rows ->
     for_each ps render_player w =
       (Ok tt,
        set_children playersTableBody (players_table_body w ++ map Appended rows) w))
  /\ (forall e, player_rows ps = Throw e ->
      exists l, for_each ps render_player w = (Throw e, set_children playersTableBody l w)).
Proof.
  revert w. induction ps as [|p ps IH]; intros w; cbn [player_rows for_each].
  - split.
    + intros rows [= <-]. cbn. rewrite app_nil_r. destruct w; reflexivity.
    + discriminate.
  - destruct (player_row p) as [row|e0] eqn:Hrow; cbn [obind].
    + assert (Hstep : render_player p w =
                (Ok tt, set_children playersTableBody
                          (players_table_body w ++ [Appended row]) w)).
      { unfold render_player. erewrite bind_ok by (apply lift_ok, Hrow). reflexivity. }
      destruct (IH (set_children playersTableBody
                      (players_table_body w ++ [Appended row]) w)) as [IHok IHthrow].
      destruct (player_rows ps) as [rows|e1]; cbn [obind]; split.
      * intros rows' [= <-]. erewrite bind_ok by exact Hstep.
        rewrite (IHok rows eq_refl).
        cbn. rewrite <- app_assoc. destruct w; reflexivity.
      * discriminate.
      * discriminate.
      * intros e [= <-]. destruct (IHthrow e1 eq_refl) as [l Hl].
        exists l. erewrite bind_ok by exact Hstep.
        rewrite Hl. rewrite set_children_twice. reflexivity.
    + split; [discriminate|]. intros e [= <-].
      exists (players_table_body w).
      erewrite bind_throw.
      2:{ unfold render_player. erewrite bind_throw by (apply lift_throw, Hrow).
          reflexivity. }
      destruct w; reflexivity.
Qed.

Lemma player_rows_length ps rows :
  player_rows ps = Ok rows -> List.length rows = List.length ps.
Proof.
  revert rows. induction ps as [|p ps IH]; intros rows; cbn.
  - intros [= <-]. reflexivity.
  - destruct (player_row p); cbn; [|discriminate].
    destruct (player_rows ps); cbn; [|discriminate].
    intros [= <-]. cbn. f_equal. apply IH. reflexivity.
Qed.

(** What [loadPlayers] does once the answer is there: the table shows
    [players_shown], at most one error goes to the console, nothing else
    changes. *)
Lemma loadPlayers_resume_shown o w :
  exists es,
    loadPlayers_resume o w =
      (Ok tt, set_children playersTableBody (players_shown o) (log_all es w))
    /\ (es = [] \/ exists e, es = [ConsoleError e]).
Proof.
  assert (Hcatch : forall e l0,
    (console_error e ;; showMessage playersTableBody "Error loading players.")
      (set_children playersTableBody l0 w)
    = (Ok tt,
       set_children playersTableBody [placeholder "Error loading players."]
         (log_all [ConsoleError e] w))).
  { intros e l0. destruct w; reflexivity. }
  assert (Hcatch0 : forall e,
    (console_error e ;; showMessage playersTableBody "Error loading players.") w
    = (Ok tt,
       set_children playersTableBody [placeholder "Error loading players."]
         (log_all [ConsoleError e] w))).
  { intros e. destruct w; reflexivity. }
  unfold loadPlayers_resume.
  destruct o as [why|res].
  { erewrite try_throw by reflexivity.
    rewrite Hcatch0.
    exists [ConsoleError (TypeError why)]. split; [reflexivity|]. right. eexists. reflexivity. }
  cbn [players_shown].
  destruct (payload res) as [v|why] eqn:Hp.
  2:{ erewrite try_throw.
      2:{ erewrite bind_ok by reflexivity.
          erewrite bind_throw by (unfold json; rewrite Hp; reflexivity). reflexivity. }
      rewrite Hcatch0.
      eexists [_]. split; [reflexivity|]. right. eexists. reflexivity. }
  assert (Hpre : forall k : value -> M unit,
    (res0 <- settle (Resolved res) ;;
     data <- json res0 ;;
     set_innerHTML playersTableBody EmptyString ;;
     k data) w = k v (set_children playersTableBody [] w)).
  { intros k. erewrite bind_ok by reflexivity.
    erewrite bind_ok by (unfold json; rewrite Hp; reflexivity).
    erewrite bind_ok by reflexivity. reflexivity. }
  destruct v as [| | | | |items|props].
  all: try (erewrite try_throw;
            [| rewrite Hpre; erewrite bind_ok by reflexivity; reflexivity];
            rewrite Hcatch; eexists [_]; split; [reflexivity|];
            right; eexists; reflexivity).
  all: try (erewrite try_throw;
            [| rewrite Hpre; erewrite bind_throw by reflexivity; reflexivity];
            rewrite Hcatch; eexists [_]; split; [reflexivity|];
            right; eexists; reflexivity).
  - (* a string *)
    unfold length_is_zero. cbn [get String.eqb Ascii.eqb Bool.eqb].
    destruct s as [|c s].
    + erewrite try_ok by (rewrite Hpre; erewrite bind_ok by reflexivity; reflexivity).
      rewrite set_children_twice. exists []. split; [reflexivity|]. left. reflexivity.
    + erewrite try_throw
        by (rewrite Hpre; erewrite bind_ok by reflexivity; reflexivity).
      rewrite Hcatch. eexists [_]. split; [reflexivity|]. right. eexists. reflexivity.
  - (* an array *)
    destruct items as [|p ps].
    + erewrite try_ok by (rewrite Hpre; erewrite bind_ok by reflexivity; reflexivity).
      rewrite set_children_twice. exists []. split; [reflexivity|]. left. reflexivity.
    + destruct (for_each_player_rows_made (p :: ps) (set_children playersTableBody [] w))
        as [Hok Hthrow].
      destruct (player_rows (p :: ps)) as [rows|e] eqn:Hrows.
      * erewrite try_ok.
        2:{ rewrite Hpre. erewrite bind_ok by reflexivity.
            change (strict_eq_zero (JNum (Int (Z.of_nat (List.length (p :: ps))))))
              with false. cbv iota.
            unfold forEach. apply (Hok rows eq_refl). }
        rewrite set_children_twice. exists []. split; [reflexivity|]. left. reflexivity.
      * destruct (Hthrow e eq_refl) as [l Hl].
        erewrite try_throw.
        2:{ rewrite Hpre. erewrite bind_ok by reflexivity.
            change (strict_eq_zero (JNum (Int (Z.of_nat (List.length (p :: ps))))))
              with false. cbv iota.
            unfold forEach. rewrite Hl, set_children_twice. reflexivity. }
        rewrite Hcatch. eexists [_]. split; [reflexivity|]. right. eexists. reflexivity.
  - (* an object *)
    unfold length_is_zero.
    destruct (get (JObj props) "length") as [len|e] eqn:Hlen.
    2:{ cbn in Hlen. destruct (lookup "length" props); discriminate. }
    destruct (strict_eq_zero len) eqn:Hz.
    + erewrite try_ok
        by (rewrite Hpre; erewrite bind_ok by (apply lift_ok, Hlen); rewrite Hz; reflexivity).
      rewrite set_children_twice. exists []. split; [reflexivity|]. left. reflexivity.
    + erewrite try_throw
        by (rewrite Hpre; erewrite bind_ok by (apply lift_ok, Hlen); rewrite Hz; reflexivity).
      rewrite Hcatch. eexists [_]. split; [reflexivity|]. right. eexists. reflexivity.
Qed.

Lemma loadPlayers_run net w :
  exists es,
    loadPlayers net w =
      (Ok tt,
       set_children playersTableBody (players_shown (net (trace w) players_request))
         (log_all (Fetch players_request :: es) w))
    /\ (es = [] \/ exists e, es = [ConsoleError e]).
Proof.
  rewrite loadPlayers_send. erewrite bind_ok by reflexivity.
  destruct (loadPlayers_resume_shown (net (trace w) players_request)
              (log (Fetch players_request) w)) as (es & Hrun & Hes).
  exists es. split; [exact Hrun | exact Hes].
Qed.

Lemma children_log_all es w c : children (log_all es w) c = children w c.
Proof.
  revert w. induction es as [|e es IH]; intros w; [reflexivity|].
  cbn [log_all fold_left]. unfold log_all in IH. rewrite IH. destruct c; reflexivity.
Qed.

Lemma children_set_other c c' l w :
  c <> c' -> children (set_children c l w) c' = children w c'.
Proof. destruct c, c'; intros H; try reflexivity; congruence. Qed.

Lemma form_set_children c l w : form (set_children c l w) = form w.
Proof. destruct c; reflexivity. Qed.

Lemma form_log_all es w : form (log_all es w) = form w.
Proof.
  revert w. induction es as [|e es IH]; intros w; [reflexivity|].
  cbn [log_all fold_left]. unfold log_all in IH. now rewrite IH.
Qed.

(** ** The player list on every answer *)

(** X1: whatever the network answers, [loadPlayers] returns normally, issues
    exactly one request (the GET of the player list), logs at most one error
    to the console and nothing else, and leaves the match list, the selection
    control, the statistics display and the form as they were. *)
Theorem loadPlayers_footprint net w :
  let w' := snd (loadPlayers net w) in
  fst (loadPlayers net w) = Ok tt
  /\ (exists es,
        trace w' = trace w ++ Fetch players_request :: es
        /\ (es = [] \/ exists e, es = [ConsoleError e]))
  /\ children w' matchesContainer = children w matchesContainer
  /\ children w' matchSelect = children w matchSelect
  /\ children w' statsDisplay = children w statsDisplay
  /\ form w' = form w
  /\ form_defaults w' = form_defaults w.
Proof.
  destruct (loadPlayers_run net w) as (es & Hrun & Hes).
  cbv zeta. rewrite Hrun. cbn [fst snd].
  split; [reflexivity|]. split.
  - exists es. split; [|exact Hes].
    rewrite trace_set_children, trace_log_all. reflexivity.
  - rewrite !children_set_other by discriminate.
    rewrite !children_log_all, form_set_children, form_log_all,
      form_defaults_set_children, form_defaults_log_all.
    repeat split.
Qed.

Lemma players_shown_shape o :
  (exists msg, players_shown o = [placeholder msg]) \/
  (exists st ps rows,
      o = Resolved {| status := st; payload := Json (JArr ps) |}
      /\ ps <> []
      /\ player_rows ps = Ok rows
      /\ players_shown o = map Appended rows).
Proof.
  destruct o as [why|[st [v|why]]]; cbn [players_shown payload];
    try (left; eexists; reflexivity).
  destruct v as [| | | | |[|p ps]|]; try (left; eexists; reflexivity).
  destruct (player_rows (p :: ps)) as [rows|e] eqn:Hrows.
  - right. exists st, (p :: ps), rows.
    split; [reflexivity|]. split; [discriminate|]. split; [exact Hrows|].
    cbn [players_shown payload]. rewrite ?Hrows. reflexivity.
  - left. eexists. reflexivity.
Qed.

(** X2: the player table never shows a partial list. After [loadPlayers] it
    holds either a single placeholder, or, when the answer is a non-empty
    array all of whose entries can be rendered, exactly one row per entry, in
    order; then an entry that cannot be rendered discards the rows made
    before it. *)
Theorem loadPlayers_all_or_nothing net w :
  let shown := children (snd (loadPlayers net w)) playersTableBody in
  (exists msg, shown = [placeholder msg]) \/
  (exists st ps rows,
      net (trace w) players_request
      = Resolved {| status := st; payload := Json (JArr ps) |}
      /\ ps <> []
      /\ player_rows ps = Ok rows
      /\ shown = map Appended rows
      /\ List.length shown = List.length ps).
Proof.
  destruct (loadPlayers_run net w) as (es & Hrun & _).
  cbv zeta. rewrite Hrun. cbn [snd]. rewrite children_set.
  destruct (players_shown_shape (net (trace w) players_request))
    as [[msg Hmsg]|(st & ps & rows & Ho & Hne & Hrows & Hshown)].
  - left. exists msg. exact Hmsg.
  - right. exists st, ps, rows. repeat split; try assumption.
    rewrite Hshown, length_map. apply player_rows_length, Hrows.
Qed.

Lemma players_shown_same_body o1 o2 :
  same_body o1 o2 -> players_shown o1 = players_shown o2.
Proof.
  destruct o1 as [?|r1], o2 as [?|r2]; cbn; try tauto.
  intros ->. reflexivity.
Qed.

(** X3: the player table is rebuilt from the answer alone. Two runs of
    [loadPlayers] whose answers have the same body show the same table,
    whatever the pages held before and whatever the HTTP statuses are: the
    status is never read. *)
Theorem loadPlayers_same_body net1 w1 net2 w2 :
  same_body (net1 (trace w1) players_request) (net2 (trace w2) players_request) ->
  children (snd (loadPlayers net1 w1)) playersTableBody
  = children (snd (loadPlayers net2 w2)) playersTableBody.
Proof.
  intros Hsame.
  destruct (loadPlayers_run net1 w1) as (es1 & -> & _).
  destruct (loadPlayers_run net2 w2) as (es2 & -> & _).
  cbn [snd]. rewrite !children_set. apply players_shown_same_body, Hsame.
Qed.

(** A 200 on an empty page and a 500 on a used page, same list. *)
Lemma loadPlayers_same_body_witness :
  children (snd (loadPlayers (answering 200 (Json (JArr [alice; bob]))) empty_page))
    playersTableBody
  = children (snd (loadPlayers (answering 500 (Json (JArr [alice; bob]))) used_page))
      playersTableBody.
Proof.
  apply (loadPlayers_same_body (answering 200 (Json (JArr [alice; bob]))) empty_page
           (answering 500 (Json (JArr [alice; bob]))) used_page).
  reflexivity.
Defined.

Lemma player_rows_bad good bad rest e :
  forallb player_record good = true ->
  player_row bad = Throw e ->
  player_rows (good ++ bad :: rest) = Throw e.
Proof.
  intros Hgood Hbad. induction good as [|p good IH]; cbn.
  - rewrite Hbad. reflexivity.
  - cbn in Hgood. apply andb_prop in Hgood as [Hp Hgood].
    rewrite (player_row_record p Hp). cbn [obind]. rewrite (IH Hgood). reflexivity.
Qed.

(** X4: when an entry of the player list cannot be rendered (reading a
    field of it throws, as for [null], or a field cannot be converted to
    text), the rows of the records before it are discarded: the table shows
    only the error placeholder, and that entry's exception is the one logged
    to the console. *)
Theorem loadPlayers_bad_entry net w st good bad rest e :
  net (trace w) players_request
  = Resolved {| status := st; payload := Json (JArr (good ++ bad :: rest)) |} ->
  forallb player_record good = true ->
  player_row bad = Throw e ->
  loadPlayers net w =
    (Ok tt,
     set_children playersTableBody [placeholder "Error loading players."]
       (log_all [Fetch players_request; ConsoleError e] w)).
Proof.
  intros Hnet Hgood Hbad.
  pose proof (player_rows_bad good bad rest e Hgood Hbad) as Hrows.
  destruct (for_each_player_rows_made (good ++ bad :: rest)
              (set_children playersTableBody [] (log (Fetch players_request) w)))
    as [_ Hthrow].
  destruct (Hthrow e Hrows) as [l Hl].
  unfold loadPlayers. erewrite try_throw.
  2:{ erewrite bind_ok by (apply fetch_resolved, Hnet).
      erewrite bind_ok by reflexivity.
      erewrite bind_ok by reflexivity.
      erewrite bind_ok by reflexivity.
      assert (Hz : strict_eq_zero
                     (JNum (Int (Z.of_nat (List.length (good ++ bad :: rest))))) = false).
      { rewrite length_app. cbn [List.length]. rewrite Nat.add_succ_r. reflexivity. }
      rewrite Hz. unfold forEach. exact Hl. }
  destruct w; reflexivity.
Qed.

(** A [null] after a good record. *)
Lemma loadPlayers_bad_entry_witness :
  loadPlayers (answering 200 (Json (JArr [alice; JNull; bob]))) empty_page =
    (Ok tt,
     set_children playersTableBody [placeholder "Error loading players."]
       (log_all [Fetch players_request;
                 ConsoleError (TypeError "Cannot read properties of null (reading 'id')")]
          empty_page)).
Proof.
  apply (loadPlayers_bad_entry (answering 200 (Json (JArr [alice; JNull; bob]))) empty_page
           200 [alice] JNull [bob]); reflexivity.
Defined.

(** ** The statistics on every answer *)

Lemma for_each_stat_cards stats w :
  (forall cards, stat_texts stats = Ok cards ->
     for_each stats
       (fun '(label, val) =>
          card <- lift (createStatCard label val) ;; appendChild statsDisplay card) w
     = (Ok tt,
        set_children statsDisplay
          (stats_display w ++ map (fun '(label, t) => stat_card_node label t) cards) w))
  /\ (forall e, stat_texts stats = Throw e ->
      exists l,
        for_each stats
          (fun '(label, val) =>
             card <- lift (createStatCard label val) ;; appendChild statsDisplay card) w
        = (Throw e, set_children statsDisplay l w)).
Proof.
  revert w. induction stats as [|[label val] stats IH]; intros w; cbn [stat_texts for_each].
  - split.
    + intros cards [= <-]. cbn. rewrite app_nil_r. destruct w; reflexivity.
    + discriminate.
  - destruct (to_string val) as [t|e0] eqn:Ht; cbn [obind].
    + assert (Hstep :
        (card <- lift (createStatCard label val) ;; appendChild statsDisplay card) w
        = (Ok tt, set_children statsDisplay (stats_display w ++ [stat_card_node label t]) w)).
      { erewrite bind_ok.
        2:{ apply lift_ok. unfold createStatCard. rewrite Ht. reflexivity. }
        reflexivity. }
      destruct (IH (set_children statsDisplay
                      (stats_display w ++ [stat_card_node label t]) w)) as [IHok IHthrow].
      destruct (stat_texts stats) as [cards|e1]; cbn [obind]; split.
      * intros cards' [= <-]. erewrite bind_ok by exact Hstep.
        rewrite (IHok cards eq_refl). cbn. rewrite <- app_assoc. destruct w; reflexivity.
      * discriminate.
      * discriminate.
      * intros e [= <-]. destruct (IHthrow e1 eq_refl) as [l Hl].
        exists l. erewrite bind_ok by exact Hstep.
        rewrite Hl, set_children_twice. reflexivity.
    + split; [discriminate|]. intros e [= <-].
      exists (stats_display w).
      erewrite bind_throw.
      2:{ erewrite bind_throw.
          2:{ apply lift_throw. unfold createStatCard. rewrite Ht. reflexivity. }
          reflexivity. }
      destruct w; reflexivity.
Qed.

(** What [loadMatchStats] does once the answer is there: the display shows
    [stats_shown], and nothing else changes. *)
Lemma loadMatchStats_resume_shown o w :
  loadMatchStats_resume o w = (Ok tt, set_children statsDisplay (stats_shown o) w).
Proof.
  unfold loadMatchStats_resume.
  destruct o as [why|res]; [reflexivity|]. cbn [stats_shown].
  destruct (ok res) eqn:Hok.
  2:{ erewrite try_throw.
      2:{ erewrite bind_ok by reflexivity. rewrite Hok. cbn [negb].
          erewrite bind_throw by reflexivity. reflexivity. }
      reflexivity. }
  destruct (payload res) as [s|why] eqn:Hp.
  2:{ erewrite try_throw.
      2:{ erewrite bind_ok by reflexivity. rewrite Hok. cbn [negb].
          erewrite bind_ok by reflexivity.
          erewrite bind_throw by (unfold json; rewrite Hp; reflexivity). reflexivity. }
      reflexivity. }
  destruct (stats_of s) as [stats|e] eqn:Hstats; cbn [obind].
  2:{ erewrite try_throw.
      2:{ erewrite bind_ok by reflexivity. rewrite Hok. cbn [negb].
          erewrite bind_ok by reflexivity.
          erewrite bind_ok by (unfold json; rewrite Hp; reflexivity).
          erewrite bind_ok by reflexivity.
          erewrite bind_throw by (apply lift_throw, Hstats). reflexivity. }
      cbn. destruct w; reflexivity. }
  destruct (for_each_stat_cards stats (set_children statsDisplay [] w)) as [Hmade Hthrow].
  destruct (stat_texts stats) as [cards|e] eqn:Htexts.
  - erewrite try_ok.
    2:{ erewrite bind_ok by reflexivity. rewrite Hok. cbn [negb].
        erewrite bind_ok by reflexivity.
        erewrite bind_ok by (unfold json; rewrite Hp; reflexivity).
        erewrite bind_ok by reflexivity.
        erewrite bind_ok by (apply lift_ok, Hstats).
        apply (Hmade cards eq_refl). }
    destruct w; reflexivity.
  - destruct (Hthrow e eq_refl) as [l Hl].
    erewrite try_throw.
    2:{ erewrite bind_ok by reflexivity. rewrite Hok. cbn [negb].
        erewrite bind_ok by reflexivity.
        erewrite bind_ok by (unfold json; rewrite Hp; reflexivity).
        erewrite bind_ok by reflexivity.
        erewrite bind_ok by (apply lift_ok, Hstats).
        exact Hl. }
    cbn. destruct w; reflexivity.
Qed.

(** The request [loadMatchStats] issues for an identifier, if any. *)
Lemma loadMatchStats_start_run net matchId w :
  loadMatchStats_start net matchId w =
    if truthy matchId then
      match to_string matchId with
      | Ok id =>
          (Ok (Some (net (trace w) (stats_request id))), log (Fetch (stats_request id)) w)
      | Throw _ =>
          (Ok None,
           set_children statsDisplay [placeholder "No statistics available for this match."] w)
      end
    else
      (Ok None,
       set_children statsDisplay [placeholder "Select a match to view statistics."] w).
Proof.
  unfold loadMatchStats_start. destruct (truthy matchId); cbn [negb]; [|reflexivity].
  destruct (to_string matchId) as [id|e]; reflexivity.
Qed.

(** X5: [loadMatchStats] issues at most one request, the GET of the
    statistics of the identifier's text, and none for a falsy identifier or
    one that cannot be converted to text; it logs nothing to the console,
    alerts nothing, and changes no container but the statistics display. *)
Theorem loadMatchStats_footprint net matchId w :
  let w' := snd (loadMatchStats net matchId w) in
  trace w' =
    trace w ++
    (if truthy matchId then
       match to_string matchId with
       | Ok id => [Fetch (stats_request id)]
       | Throw _ => []
       end
     else [])
  /\ children w' playersTableBody = children w playersTableBody
  /\ children w' matchesContainer = children w matchesContainer
  /\ children w' matchSelect = children w matchSelect
  /\ form w' = form w
  /\ form_defaults w' = form_defaults w.
Proof.
  cbv zeta. rewrite loadMatchStats_send. unfold bind.
  rewrite loadMatchStats_start_run.
  destruct (truthy matchId).
  - destruct (to_string matchId) as [id|e].
    + cbv beta iota. unfold resume_pending. rewrite loadMatchStats_resume_shown. cbn [snd].
      rewrite trace_set_children. destruct w; repeat split.
    + cbn. rewrite app_nil_r. destruct w; repeat split.
  - cbn. rewrite app_nil_r. destruct w; repeat split.
Qed.

Lemma get_prop_of s k e :
  get s k = Throw e -> forall k', exists e', get s k' = Throw e'.
Proof.
  destruct s; cbn; try discriminate; try (intros _ k'; eexists; reflexivity).
  - destruct (String.eqb k "length"); discriminate.
  - destruct (String.eqb k "length"); discriminate.
  - destruct (lookup k props); discriminate.
Qed.

Lemma get_total s k k' x :
  get s k = Ok x -> get s k' = Ok (prop_of s k').
Proof.
  intros H. unfold prop_of.
  destruct (get s k') as [y|e] eqn:Hk; [reflexivity|].
  destruct (get_prop_of s k' e Hk k) as [e' He']. congruence.
Qed.

Lemma stats_of_labels s stats :
  stats_of s = Ok stats -> map fst stats = map fst stat_table.
Proof.
  unfold stats_of.
  destruct (get s "expected_goals") as [x|e] eqn:Hx; [|discriminate].
  rewrite !(get_total s "expected_goals" _ x Hx). cbn [obind].
  intros [= <-]. reflexivity.
Qed.

Lemma stat_texts_labels stats cards :
  stat_texts stats = Ok cards -> map fst cards = map fst stats.
Proof.
  revert cards. induction stats as [|[label val] stats IH]; intros cards; cbn.
  - intros [= <-]. reflexivity.
  - destruct (to_string val); cbn; [|discriminate].
    destruct (stat_texts stats); cbn; [|discriminate].
    intros [= <-]. cbn. f_equal. apply IH. reflexivity.
Qed.

Lemma stats_shown_shape o :
  (exists msg, stats_shown o = [placeholder msg]) \/
  (exists texts,
      List.length texts = 12%nat
      /\ stats_shown o =
         map (fun '(label, t) => stat_card_node label t)
           (combine (map fst stat_table) texts)).
Proof.
  destruct o as [why|res]; cbn [stats_shown]; [left; eexists; reflexivity|].
  destruct (ok res); [|left; eexists; reflexivity].
  destruct (payload res) as [s|why]; [|left; eexists; reflexivity].
  destruct (stats_of s) as [stats|e] eqn:Hs; cbn [obind]; [|left; eexists; reflexivity].
  destruct (stat_texts stats) as [cards|e] eqn:Ht; [|left; eexists; reflexivity].
  right. exists (map snd cards).
  pose proof (stat_texts_labels stats cards Ht) as Hl.
  rewrite (stats_of_labels s stats Hs) in Hl.
  split.
  - rewrite length_map, <- (length_map fst), Hl. reflexivity.
  - rewrite <- Hl. f_equal. clear. induction cards as [|[l t] cards IH]; cbn; congruence.
Qed.

(** X6: the statistics display never shows a partial set of cards. After
    [loadMatchStats] it holds either a single placeholder or exactly twelve
    cards carrying the twelve labels in their fixed order. *)
Theorem loadMatchStats_all_or_nothing net matchId w :
  let shown := children (snd (loadMatchStats net matchId w)) statsDisplay in
  (exists msg, shown = [placeholder msg]) \/
  (exists texts,
      List.length texts = 12%nat
      /\ shown =
         map (fun '(label, t) => stat_card_node label t)
           (combine (map fst stat_table) texts)).
Proof.
  cbv zeta. rewrite loadMatchStats_send. unfold bind.
  rewrite loadMatchStats_start_run.
  destruct (truthy matchId).
  - destruct (to_string matchId) as [id|e].
    + cbv beta iota. unfold resume_pending. rewrite loadMatchStats_resume_shown. cbn [snd].
      rewrite children_set. apply stats_shown_shape.
    + left. eexists. reflexivity.
  - left. eexists. reflexivity.
Qed.




(** ** The match list on every answer *)

Lemma for_each_matches_made ms w :
  for_each ms render_match w =
    let '(r, cards, opts) := matches_made ms in
    (match r with None => Ok tt | Some e => Throw e end,
     set_children matchSelect (match_select w ++ map Appended opts)
       (set_children matchesContainer (matches_container w ++ map Appended cards) w)).
Proof.
  revert w. induction ms as [|m ms IH]; intros w; cbn [for_each matches_made].
  - cbn. rewrite !app_nil_r. destruct w; reflexivity.
  - unfold render_match at 1.
    destruct (match_card m) as [card|e] eqn:Hcard.
    2:{ erewrite bind_throw by (erewrite bind_throw by reflexivity; reflexivity).
        cbn. rewrite !app_nil_r. destruct w; reflexivity. }
    destruct (get m "is_completed") as [c|e] eqn:Hc.
    2:{ erewrite bind_throw.
        2:{ erewrite bind_ok by reflexivity. erewrite bind_ok by reflexivity.
            erewrite bind_throw by reflexivity. reflexivity. }
        cbn. rewrite !app_nil_r. destruct w; reflexivity. }
    destruct (truthy c) eqn:Ht.
    + destruct (match_option m) as [opt|e] eqn:Hopt.
      2:{ erewrite bind_throw.
          2:{ erewrite bind_ok by reflexivity. erewrite bind_ok by reflexivity.
              erewrite bind_ok by reflexivity. rewrite Ht.
              erewrite bind_throw by reflexivity. reflexivity. }
          cbn. rewrite !app_nil_r. destruct w; reflexivity. }
      erewrite bind_ok.
      2:{ erewrite bind_ok by reflexivity. erewrite bind_ok by reflexivity.
          erewrite bind_ok by reflexivity. rewrite Ht.
          erewrite bind_ok by reflexivity. reflexivity. }
      rewrite IH. destruct (matches_made ms) as [[r cards] opts].
      destruct w; cbn. rewrite <- !app_assoc. reflexivity.
    + erewrite bind_ok.
      2:{ erewrite bind_ok by reflexivity. erewrite bind_ok by reflexivity.
          erewrite bind_ok by reflexivity. rewrite Ht. reflexivity. }
      rewrite IH. destruct (matches_made ms) as [[r cards] opts].
      destruct w; cbn. rewrite <- !app_assoc. reflexivity.
Qed.

(** What [loadMatches] does once the answer is there: the list shows
    [matches_shown], the selection control holds [select_shown] when it is
    written, at most one error goes to the console, nothing else changes. *)
Lemma loadMatches_resume_shown o w :
  exists es,
    loadMatches_resume o w =
      (Ok tt,
       set_children matchSelect
         (match select_shown o with Some s => s | None => match_select w end)
         (set_children matchesContainer (matches_shown o) (log_all es w)))
    /\ (es = [] \/ exists e, es = [ConsoleError e]).
Proof.
  assert (Hcatch : forall e sel l0,
    (console_error e ;; showMessage matchesContainer "Error loading matches.")
      (set_children matchSelect sel (set_children matchesContainer l0 w))
    = (Ok tt,
       set_children matchSelect sel
         (set_children matchesContainer [placeholder "Error loading matches."]
            (log_all [ConsoleError e] w)))).
  { intros e sel l0. destruct w; reflexivity. }
  assert (Hcatch0 : forall e,
    (console_error e ;; showMessage matchesContainer "Error loading matches.") w
    = (Ok tt,
       set_children matchSelect (match_select w)
         (set_children matchesContainer [placeholder "Error loading matches."]
            (log_all [ConsoleError e] w)))).
  { intros e. destruct w; reflexivity. }
  unfold loadMatches_resume.
  destruct o as [why|res].
  { erewrite try_throw by reflexivity. rewrite Hcatch0.
    eexists [_]. split; [reflexivity|]. right. eexists. reflexivity. }
  cbn [matches_shown select_shown].
  destruct (payload res) as [v|why] eqn:Hp.
  2:{ erewrite try_throw.
      2:{ erewrite bind_ok by reflexivity.
          erewrite bind_throw by (unfold json; rewrite Hp; reflexivity). reflexivity. }
      rewrite Hcatch0.
      eexists [_]. split; [reflexivity|]. right. eexists. reflexivity. }
  assert (Hpre : forall k : value -> M unit,
    (res0 <- settle (Resolved res) ;;
     matches <- json res0 ;;
     set_innerHTML matchesContainer EmptyString ;;
     set_innerHTML matchSelect default_option ;;
     k matches) w
    = k v (set_children matchSelect [Parsed default_option]
             (set_children matchesContainer [] w))).
  { intros k. erewrite bind_ok by reflexivity.
    erewrite bind_ok by (unfold json; rewrite Hp; reflexivity).
    erewrite bind_ok by reflexivity.
    erewrite bind_ok by reflexivity.
    rewrite default_option_not_empty. reflexivity. }
  assert (Hshow :
    showMessage matchesContainer "No matches found."
      (set_children matchSelect [Parsed default_option]
         (set_children matchesContainer [] w))
    = (Ok tt,
       set_children matchSelect [Parsed default_option]
         (set_children matchesContainer [placeholder "No matches found."]
            (log_all [] w)))).
  { destruct w; reflexivity. }
  destruct v as [| | | | |items|props].
  all: try (erewrite try_throw;
            [| rewrite Hpre; erewrite bind_ok by reflexivity; reflexivity];
            rewrite Hcatch; eexists [_]; split; [reflexivity|];
            right; eexists; reflexivity).
  all: try (erewrite try_throw;
            [| rewrite Hpre; erewrite bind_throw by reflexivity; reflexivity];
            rewrite Hcatch; eexists [_]; split; [reflexivity|];
            right; eexists; reflexivity).
  - (* a string *)
    unfold length_is_zero. cbn [get String.eqb Ascii.eqb Bool.eqb].
    destruct s as [|c s].
    + erewrite try_ok
        by (rewrite Hpre; erewrite bind_ok by reflexivity; exact Hshow).
      exists []. split; [reflexivity|]. left. reflexivity.
    + erewrite try_throw
        by (rewrite Hpre; erewrite bind_ok by reflexivity; reflexivity).
      rewrite Hcatch. eexists [_]. split; [reflexivity|]. right. eexists. reflexivity.
  - (* an array *)
    destruct items as [|m ms].
    + erewrite try_ok
        by (rewrite Hpre; erewrite bind_ok by reflexivity; exact Hshow).
      exists []. split; [reflexivity|]. left. reflexivity.
    + pose proof (for_each_matches_made (m :: ms)
                    (set_children matchSelect [Parsed default_option]
                       (set_children matchesContainer [] w))) as Hloop.
      destruct (matches_made (m :: ms)) as [[[e|] cards] opts] eqn:Hmade.
      * erewrite try_throw.
        2:{ rewrite Hpre. erewrite bind_ok by reflexivity.
            change (strict_eq_zero (JNum (Int (Z.of_nat (List.length (m :: ms))))))
              with false. cbv iota.
            unfold forEach. exact Hloop. }
        exists [ConsoleError e].
        split; [destruct w; reflexivity|]. right. eexists. reflexivity.
      * erewrite try_ok.
        2:{ rewrite Hpre. erewrite bind_ok by reflexivity.
            change (strict_eq_zero (JNum (Int (Z.of_nat (List.length (m :: ms))))))
              with false. cbv iota.
            unfold forEach. exact Hloop. }
        exists []. split; [destruct w; reflexivity|]. left. reflexivity.
  - (* an object *)
    unfold length_is_zero.
    destruct (get (JObj props) "length") as [len|e] eqn:Hlen.
    2:{ cbn in Hlen. destruct (lookup "length" props); discriminate. }
    destruct (strict_eq_zero len) eqn:Hz.
    + erewrite try_ok
        by (rewrite Hpre; erewrite bind_ok by (apply lift_ok, Hlen); rewrite Hz;
            exact Hshow).
      exists []. split; [reflexivity|]. left. reflexivity.
    + erewrite try_throw
        by (rewrite Hpre; erewrite bind_ok by (apply lift_ok, Hlen); rewrite Hz;
            reflexivity).
      rewrite Hcatch. eexists [_]. split; [reflexivity|]. right. eexists. reflexivity.
Qed.

Lemma loadMatches_run net w :
  exists es,
    loadMatches net w =
      (Ok tt,
       set_children matchSelect
         (match select_shown (net (trace w) matches_request) with
          | Some s => s
          | None => match_select w
          end)
         (set_children matchesContainer (matches_shown (net (trace w) matches_request))
            (log_all (Fetch matches_request :: es) w)))
    /\ (es = [] \/ exists e, es = [ConsoleError e]).
Proof.
  rewrite loadMatches_send. erewrite bind_ok by reflexivity.
  destruct (loadMatches_resume_shown (net (trace w) matches_request)
              (log (Fetch matches_request) w)) as (es & Hrun & Hes).
  exists es. split; [exact Hrun | exact Hes].
Qed.

(** X8: whatever the network answers, [loadMatches] returns normally, issues
    exactly one request (the GET of the match list), logs at most one error
    to the console and nothing else, and leaves the player table, the
    statistics display and the form as they were. *)
Theorem loadMatches_footprint net w :
  let w' := snd (loadMatches net w) in
  fst (loadMatches net w) = Ok tt
  /\ (exists es,
        trace w' = trace w ++ Fetch matches_request :: es
        /\ (es = [] \/ exists e, es = [ConsoleError e]))
  /\ children w' playersTableBody = children w playersTableBody
  /\ children w' statsDisplay = children w statsDisplay
  /\ form w' = form w
  /\ form_defaults w' = form_defaults w.
Proof.
  destruct (loadMatches_run net w) as (es & Hrun & Hes).
  cbv zeta. rewrite Hrun. cbn [fst snd].
  split; [reflexivity|]. split.
  - exists es. split; [|exact Hes].
    rewrite !trace_set_children, trace_log_all. reflexivity.
  - rewrite !children_set_other by discriminate.
    rewrite !children_log_all, !form_set_children, form_log_all,
      !form_defaults_set_children, form_defaults_log_all.
    repeat split.
Qed.

Lemma matches_made_cards ms cards opts :
  matches_made ms = (None, cards, opts) ->
  Forall2 (fun m card => match_card m = Ok card) ms cards.
Proof.
  revert cards opts. induction ms as [|m ms IH]; intros cards opts; cbn [matches_made].
  - intros [= <- <-]. constructor.
  - destruct (match_card m) as [card|e] eqn:Hcard; [|discriminate].
    destruct (get m "is_completed") as [c|e]; [|discriminate].
    destruct (truthy c).
    + destruct (match_option m) as [opt|e]; [|discriminate].
      destruct (matches_made ms) as [[r cards'] opts'].
      intros [= -> <- <-]. constructor; [exact Hcard|]. eapply IH. reflexivity.
    + destruct (matches_made ms) as [[r cards'] opts'].
      intros [= -> <- <-]. constructor; [exact Hcard|]. eapply IH. reflexivity.
Qed.

Lemma matches_shown_shape o :
  (exists msg, matches_shown o = [placeholder msg]) \/
  (exists st ms cards,
      o = Resolved {| status := st; payload := Json (JArr ms) |}
      /\ ms <> []
      /\ Forall2 (fun m card => match_card m = Ok card) ms cards
      /\ matches_shown o = map Appended cards).
Proof.
  destruct o as [why|[st [v|why]]]; cbn [matches_shown payload];
    try (left; eexists; reflexivity).
  destruct v as [| | | | |[|m ms]|]; try (left; eexists; reflexivity).
  destruct (matches_made (m :: ms)) as [[[e|] cards] opts] eqn:Hmade.
  - left. eexists. reflexivity.
  - right. exists st, (m :: ms), cards.
    split; [reflexivity|]. split; [discriminate|]. split.
    + eapply matches_made_cards, Hmade.
    + cbn [matches_shown payload]. rewrite ?Hmade. reflexivity.
Qed.

(** X9: the match list never shows a partial list. After [loadMatches] the
    match container holds either a single placeholder, or, when the answer is
    a non-empty array all of whose entries can be rendered, exactly one card
    per entry, in order. *)
Theorem loadMatches_all_or_nothing net w :
  let shown := children (snd (loadMatches net w)) matchesContainer in
  (exists msg, shown = [placeholder msg]) \/
  (exists st ms cards,
      net (trace w) matches_request
      = Resolved {| status := st; payload := Json (JArr ms) |}
      /\ ms <> []
      /\ Forall2 (fun m card => match_card m = Ok card) ms cards
      /\ shown = map Appended cards
      /\ List.length shown = List.length ms).
Proof.
  destruct (loadMatches_run net w) as (es & Hrun & _).
  cbv zeta. rewrite Hrun. cbn [snd].
  rewrite children_set_other by discriminate. rewrite children_set.
  destruct (matches_shown_shape (net (trace w) matches_request))
    as [[msg Hmsg]|(st & ms & cards & Ho & Hne & Hcards & Hshown)].
  - left. exists msg. exact Hmsg.
  - right. exists st, ms, cards. repeat split; try assumption.
    rewrite Hshown, length_map. symmetry. eapply Forall2_length, Hcards.
Qed.

Lemma for_each_app {A} (l1 l2 : list A) (f : A -> M unit) w :
  for_each (l1 ++ l2) f w = (for_each l1 f ;; for_each l2 f) w.
Proof.
  revert w. induction l1 as [|x l1 IH]; intros w; cbn [for_each app].
  - reflexivity.
  - unfold bind. destruct (f x w) as [[[]|e] w1]; [|reflexivity].
    rewrite IH. reflexivity.
Qed.

(** X10: when an entry of the match list cannot be rendered, the match
    container shows only the error placeholder and the exception is logged,
    but the selection control keeps what was written before the failure: the
    default option and one option per completed match among the records
    before the bad entry. *)
Theorem loadMatches_bad_entry net w st good bad rest e :
  net (trace w) matches_request
  = Resolved {| status := st; payload := Json (JArr (good ++ bad :: rest)) |} ->
  forallb match_record good = true ->
  match_card bad = Throw e ->
  loadMatches net w =
    (Ok tt,
     set_children matchSelect
       (Parsed default_option :: map match_option_node (filter completed good))
       (set_children matchesContainer [placeholder "Error loading matches."]
          (log_all [Fetch matches_request; ConsoleError e] w))).
Proof.
  intros Hnet Hgood Hbad.
  unfold loadMatches. erewrite try_throw.
  2:{ erewrite bind_ok by (apply fetch_resolved, Hnet).
      erewrite bind_ok by reflexivity.
      erewrite bind_ok by reflexivity.
      erewrite bind_ok by reflexivity.
      erewrite bind_ok by reflexivity.
      assert (Hz : strict_eq_zero
                     (JNum (Int (Z.of_nat (List.length (good ++ bad :: rest))))) = false).
      { rewrite length_app. cbn [List.length]. rewrite Nat.add_succ_r. reflexivity. }
      rewrite Hz. unfold forEach. rewrite for_each_app.
      erewrite bind_ok by (apply for_each_matches, Hgood).
      cbn [for_each]. erewrite bind_throw.
      2:{ unfold render_match. erewrite bind_throw by (apply lift_throw, Hbad).
          reflexivity. }
      reflexivity. }
  rewrite default_option_not_empty. destruct w; reflexivity.
Qed.

(** A [null] after a won match and a scheduled one. *)
Lemma loadMatches_bad_entry_witness :
  loadMatches (answering 200 (Json (JArr [won_match; next_match; JNull]))) empty_page =
    (Ok tt,
     set_children matchSelect
       [Parsed default_option; option_with "5" "2024-05-01 vs Hanoi FC"]
       (set_children matchesContainer [placeholder "Error loading matches."]
          (log_all
             [Fetch matches_request;
              ConsoleError
                (TypeError "Cannot read properties of null (reading 'is_completed')")]
             empty_page))).
Proof.
  apply (loadMatches_bad_entry
           (answering 200 (Json (JArr [won_match; next_match; JNull]))) empty_page
           200 [won_match; next_match] JNull []); reflexivity.
Defined.

(** ** The initial load *)

(** Reading a container through the writes made to the page. *)
Ltac project_children :=
  repeat first
    [ rewrite children_set
    | rewrite children_set_other by discriminate
    | rewrite children_log_all ].

Lemma initial_load_run net w order :
  exists es1 es2,
    (es1 = [] \/ exists e, es1 = [ConsoleError e])
    /\ (es2 = [] \/ exists e, es2 = [ConsoleError e])
    /\ let o1 := net (trace w) players_request in
       let o2 := net (trace w ++ [Fetch players_request]) matches_request in
       let w' := snd (initial_load net order w) in
       fst (initial_load net order w) = Ok tt
       /\ children w' playersTableBody = players_shown o1
       /\ children w' matchesContainer = matches_shown o2
       /\ children w' matchSelect =
          match select_shown o2 with Some s => s | None => children w matchSelect end
       /\ children w' statsDisplay = children w statsDisplay
       /\ trace w' =
          trace w ++ [Fetch players_request; Fetch matches_request] ++
          (if order then es1 ++ es2 else es2 ++ es1).
Proof.
  set (o1 := net (trace w) players_request).
  set (o2 := net (trace w ++ [Fetch players_request]) matches_request).
  set (w2 := log (Fetch matches_request) (log (Fetch players_request) w)).
  assert (Hsend : forall k : fetch_outcome -> fetch_outcome -> M unit,
            (a <- send net players_request ;; b <- send net matches_request ;; k a b) w
            = k o1 o2 w2).
  { intros k. erewrite bind_ok by reflexivity. erewrite bind_ok by reflexivity.
    reflexivity. }
  assert (Htrace2 : trace w2 = trace w ++ [Fetch players_request; Fetch matches_request]).
  { unfold w2. cbn [trace log]. rewrite <- app_assoc. reflexivity. }
  assert (Hkids2 : forall c, children w2 c = children w c).
  { intros c. destruct c; reflexivity. }
  unfold initial_load. destruct order.
  - destruct (loadPlayers_resume_shown o1 w2) as (es1 & Hp & Hes1).
    destruct (loadMatches_resume_shown o2
                (set_children playersTableBody (players_shown o1) (log_all es1 w2)))
      as (es2 & Hm & Hes2).
    exists es1, es2. split; [exact Hes1|]. split; [exact Hes2|].
    cbv zeta. fold o1 o2. rewrite Hsend.
    erewrite bind_ok by exact Hp. rewrite Hm. cbn [fst snd].
    split; [reflexivity|].
    change (match_select
              (set_children playersTableBody (players_shown o1) (log_all es1 w2)))
      with (children (set_children playersTableBody (players_shown o1) (log_all es1 w2))
              matchSelect).
    project_children. rewrite !Hkids2.
    rewrite !trace_set_children, !trace_log_all, !trace_set_children, !trace_log_all.
    rewrite Htrace2, <- !app_assoc.
    repeat split.
  - destruct (loadMatches_resume_shown o2 w2) as (es2 & Hm & Hes2).
    destruct (loadPlayers_resume_shown o1
                (set_children matchSelect
                   (match select_shown o2 with Some s => s | None => match_select w2 end)
                   (set_children matchesContainer (matches_shown o2) (log_all es2 w2))))
      as (es1 & Hp & Hes1).
    exists es1, es2. split; [exact Hes1|]. split; [exact Hes2|].
    cbv zeta. fold o1 o2. rewrite Hsend.
    erewrite bind_ok by exact Hm. rewrite Hp. cbn [fst snd].
    split; [reflexivity|].
    change (match_select w2) with (children w2 matchSelect).
    project_children. rewrite !Hkids2.
    rewrite !trace_set_children, !trace_log_all, !trace_set_children, !trace_log_all.
    rewrite Htrace2, <- !app_assoc.
    repeat split.
Qed.

(** X11: the initial load sends the player request and then the match
    request, and what the page shows afterwards does not depend on which
    answer arrives first: every container ends as in the other order, the
    player table as [loadPlayers] alone would leave it and the match list and
    the selection control as [loadMatches] alone would, so a failure of one
    load does not disturb the other. Only console errors follow the two
    requests in the trace. *)
Theorem initial_load_any_order net w order :
  let w' := snd (initial_load net order w) in
  fst (initial_load net order w) = Ok tt
  /\ (forall c, children w' c = children (snd (initial_load net (negb order) w)) c)
  /\ children w' playersTableBody
     = children (snd (loadPlayers net w)) playersTableBody
  /\ children w' matchesContainer
     = children (snd (loadMatches net (log (Fetch players_request) w))) matchesContainer
  /\ children w' matchSelect
     = children (snd (loadMatches net (log (Fetch players_request) w))) matchSelect
  /\ exists es,
       trace w' = trace w ++ Fetch players_request :: Fetch matches_request :: es
       /\ Forall (fun ev => exists e, ev = ConsoleError e) es.
Proof.
  destruct (initial_load_run net w order)
    as (es1 & es2 & Hes1 & Hes2 & Hok & Hp & Hm & Hs & Hd & Ht).
  destruct (initial_load_run net w (negb order))
    as (es1' & es2' & _ & _ & _ & Hp' & Hm' & Hs' & Hd' & _).
  cbv zeta in *.
  split; [exact Hok|]. split; [|split; [|split; [|split]]].
  - intros c. destruct c.
    + rewrite Hp, Hp'. reflexivity.
    + rewrite Hm, Hm'. reflexivity.
    + rewrite Hs, Hs'. reflexivity.
    + rewrite Hd, Hd'. reflexivity.
  - rewrite Hp. destruct (loadPlayers_run net w) as (es & -> & _).
    cbn [snd]. rewrite children_set. reflexivity.
  - rewrite Hm.
    destruct (loadMatches_run net (log (Fetch players_request) w)) as (es & -> & _).
    cbn [snd]. project_children. reflexivity.
  - rewrite Hs.
    destruct (loadMatches_run net (log (Fetch players_request) w)) as (es & -> & _).
    cbn [snd]. project_children. reflexivity.
  - exists (if order then es1 ++ es2 else es2 ++ es1). split; [exact Ht|].
    assert (H1 : Forall (fun ev => exists e, ev = ConsoleError e) es1).
    { destruct Hes1 as [->|[e ->]]; repeat constructor. eexists. reflexivity. }
    assert (H2 : Forall (fun ev => exists e, ev = ConsoleError e) es2).
    { destruct Hes2 as [->|[e ->]]; repeat constructor. eexists. reflexivity. }
    destruct order; apply Forall_app; split; assumption.
Qed.

(** ** The numbers of the player form *)














(** ** Statistics with missing fields *)

Lemma text_of_missing props key :
  has_own key props = false -> text_of (JObj props) key = "undefined".
Proof.
  unfold has_own, text_of, field. cbn [get].
  destruct (lookup key props); [discriminate|]. reflexivity.
Qed.

Lemma stats_record_missing props :
  forallb (fun key => negb (has_own key props)) stats_fields = true ->
  stats_record (JObj props) = true.
Proof.
  intros H. unfold stats_record, flat_record.
  rewrite forallb_forall in *. intros key Hin. specialize (H key Hin).
  unfold has_own in H. destruct (lookup key props); [discriminate|reflexivity].
Qed.

(** X13: a successful answer whose body is an object with none of the
    twelve statistics fields (an error object sent with status 200, say) is
    not treated as a failure: the display shows the twelve labelled cards,
    each with the text "undefined". *)
Theorem loadMatchStats_missing_fields net w matchId id res props :
  truthy matchId = true ->
  to_string matchId = Ok id ->
  net (trace w) (stats_request id) = Resolved res ->
  ok res = true ->
  payload res = Json (JObj props) ->
  forallb (fun key => negb (has_own key props)) stats_fields = true ->
  loadMatchStats net matchId w =
    (Ok tt,
     set_children statsDisplay
       (map (fun label => stat_card_node label "undefined") (map fst stat_table))
       (log (Fetch (stats_request id)) w)).
Proof.
  intros Ht Hid Hnet Hok Hp Hmissing.
  pose proof (stats_record_missing props Hmissing) as Hs.
  unfold loadMatchStats. rewrite Ht. cbn [negb]. erewrite try_ok.
  2:{ erewrite bind_ok by (apply lift_ok, Hid).
      erewrite bind_ok by (apply fetch_resolved, Hnet).
      rewrite Hok. cbn [negb].
      erewrite bind_ok by reflexivity.
      erewrite bind_ok by (unfold json; rewrite Hp; reflexivity).
      erewrite bind_ok by reflexivity.
      erewrite bind_ok by (apply lift_ok, stats_of_record, Hs).
      apply (for_each_cards stat_table (JObj props)); [exact Hs | exact stat_table_fields]. }
  rewrite set_children_twice. f_equal. f_equal.
  cbn [children set_children stats_display app]. rewrite map_map.
  apply map_ext_in. intros [label key] Hin. cbn [fst].
  rewrite text_of_missing; [reflexivity|].
  rewrite forallb_forall in Hmissing.
  specialize (Hmissing key (stat_table_fields label key Hin)).
  destruct (has_own key props); [discriminate|reflexivity].
Qed.

(** An error object sent with status 200. *)
Lemma loadMatchStats_missing_fields_witness :
  loadMatchStats (answering 200 (Json error_object)) (JStr "5") empty_page =
    (Ok tt,
     set_children statsDisplay
       (map (fun label => stat_card_node label "undefined") (map fst stat_table))
       (log (Fetch (stats_request "5")) empty_page)).
Proof.
  apply (loadMatchStats_missing_fields (answering 200 (Json error_object)) empty_page
           (JStr "5") "5" {| status := 200; payload := Json error_object |}
           [("detail", JStr "Internal Server Error")]); reflexivity.
Defined.
